(** * FocusForge: the statistics store and its callers

    A shallow embedding of [utils/storage.ts] (the statistics and settings
    stores), of the [UserStats]/[AppSettings] types and of the three places in
    [App.tsx] that update the statistics record ([completeSession] and the two
    daily-goal buttons).

    Modelling conventions.
    - A JavaScript number that holds a count or a time value is a [Z].
    - A [Date] is its time value: the number of milliseconds since the epoch.
      An ISO string written by [toISOString] and read back by [new Date(..)]
      denotes the same time value, so the fields [lastUpdate] and
      [weekStartDate] are kept as time values.
    - The [Date] getters and [setDate] follow the day-number and time-value
      algorithms of ECMA-262 (Day, DayFromYear, YearFromTime, MonthFromTime,
      DateFromTime, MakeDay, MakeDate).
    - The local time zone of the host is a fixed offset [tz] from UTC, in
      milliseconds (no daylight-saving transitions).
    - A history object is an association list in property-insertion order.
    - A text kept in [localStorage] is represented by what [JSON.parse] makes
      of it. *)

From Stdlib Require Import ZArith Lia List QArith.
From stdpp Require Import base numbers list strings pretty.

Local Open Scope Z_scope.

(** ** ECMA-262 day numbers and calendar fields *)

Module Calendar.

Definition msPerDay : Z := 86400000.

Definition Day (t : Z) : Z := t `div` msPerDay.
Definition TimeWithinDay (t : Z) : Z := t `mod` msPerDay.

Definition InLeapYear_of (y : Z) : bool :=
  ((y `mod` 4 =? 0) && negb (y `mod` 100 =? 0)) || (y `mod` 400 =? 0).

Definition DaysInYear (y : Z) : Z := if InLeapYear_of y then 366 else 365.

Definition DayFromYear (y : Z) : Z :=
  365 * (y - 1970) + (y - 1969) `div` 4 - (y - 1901) `div` 100
  + (y - 1601) `div` 400.

(** The largest [y] with [DayFromYear y <= d]: an estimate from the mean
    length of a Gregorian year, corrected by at most one year. *)
Definition YearFromDay (d : Z) : Z :=
  let y := 1970 + (400 * d) `div` 146097 in
  if DayFromYear (y + 1) <=? d then y + 1
  else if DayFromYear y <=? d then y
  else y - 1.

Definition YearFromTime (t : Z) : Z := YearFromDay (Day t).

Definition leapAdj (y : Z) : Z := if InLeapYear_of y then 1 else 0.

Definition DayWithinYear (t : Z) : Z := Day t - DayFromYear (YearFromTime t).

(** Day within the year on which month [m] (0 = January) starts. *)
Definition monthStart (leap : Z) (m : Z) : Z :=
  if m <=? 0 then 0
  else if m =? 1 then 31
  else if m =? 2 then 59 + leap
  else if m =? 3 then 90 + leap
  else if m =? 4 then 120 + leap
  else if m =? 5 then 151 + leap
  else if m =? 6 then 181 + leap
  else if m =? 7 then 212 + leap
  else if m =? 8 then 243 + leap
  else if m =? 9 then 273 + leap
  else if m =? 10 then 304 + leap
  else 334 + leap.

Definition monthOfDay (leap : Z) (dwy : Z) : Z :=
  if dwy <? 31 then 0
  else if dwy <? 59 + leap then 1
  else if dwy <? 90 + leap then 2
  else if dwy <? 120 + leap then 3
  else if dwy <? 151 + leap then 4
  else if dwy <? 181 + leap then 5
  else if dwy <? 212 + leap then 6
  else if dwy <? 243 + leap then 7
  else if dwy <? 273 + leap then 8
  else if dwy <? 304 + leap then 9
  else if dwy <? 334 + leap then 10
  else 11.

Definition MonthFromTime (t : Z) : Z :=
  monthOfDay (leapAdj (YearFromTime t)) (DayWithinYear t).

Definition DateFromTime (t : Z) : Z :=
  DayWithinYear t
  - monthStart (leapAdj (YearFromTime t)) (MonthFromTime t) + 1.

(** [MakeDay year month date]: the day number of the [date]-th day (1-based,
    any integer) counted from the first day of [month] of [year]. *)
Definition MakeDay (year month date : Z) : Z :=
  let ym := year + month `div` 12 in
  let mn := month `mod` 12 in
  DayFromYear ym + monthStart (leapAdj ym) mn + date - 1.

Definition MakeDate (day time : Z) : Z := day * msPerDay + time.

End Calendar.

(** ** The local-time view of a [Date] *)

Section LocalTime.

Variable tz : Z.

Definition LocalTime (t : Z) : Z := t + tz.
Definition UTC (t : Z) : Z := t - tz.

Definition getFullYear (date : Z) : Z := Calendar.YearFromTime (LocalTime date).
Definition getMonth (date : Z) : Z := Calendar.MonthFromTime (LocalTime date).
Definition getDate (date : Z) : Z := Calendar.DateFromTime (LocalTime date).

(** [d.setDate(dt)]: same local year, month and time of day, day of month
    [dt]. *)
Definition setDate (d : Z) (dt : Z) : Z :=
  let t := LocalTime d in
  UTC (Calendar.MakeDate
         (Calendar.MakeDay (Calendar.YearFromTime t) (Calendar.MonthFromTime t) dt)
         (Calendar.TimeWithinDay t)).

(** The local day number of an instant. *)
Definition localDay (t : Z) : Z := Calendar.Day (LocalTime t).

End LocalTime.

(** ** Strings built by the store *)

(** [s.padStart(n, c)] for a one-character filler [c]. *)
Fixpoint replicate_char (n : nat) (c : Ascii.ascii) : string :=
  match n with
  | O => EmptyString
  | S n' => String c (replicate_char n' c)
  end.

Definition padStart (targetLength : nat) (c : Ascii.ascii) (s : string) : string :=
  replicate_char (targetLength - String.length s) c +:+ s.

Definition zero_char : Ascii.ascii := Ascii.Ascii false false false false true true false false.

(** [String(n)] for an integer [n]. *)
Definition String_of (n : Z) : string := pretty n.

(** [String(n).padStart(2, '0')] *)
Definition pad2 (n : Z) : string := padStart 2 zero_char (String_of n).

Definition is_digit (c : Ascii.ascii) : bool :=
  let n := Ascii.N_of_ascii c in ((48 <=? n) && (n <=? 57))%N.

Fixpoint all_digits (s : string) : bool :=
  match s with
  | EmptyString => true
  | String c s' => is_digit c && all_digits s'
  end.

Definition dash : Ascii.ascii := Ascii.Ascii true false true true false true false false.

(** The shape YYYY-MM-DD: four digits, a dash, two digits, a dash, two
    digits. *)
Definition is_YYYY_MM_DD (s : string) : bool :=
  match s with
  | String y1 (String y2 (String y3 (String y4 (String c1
      (String m1 (String m2 (String c2 (String d1 (String d2 EmptyString))))))))) =>
      is_digit y1 && is_digit y2 && is_digit y3 && is_digit y4
      && Ascii.eqb c1 dash && is_digit m1 && is_digit m2
      && Ascii.eqb c2 dash && is_digit d1 && is_digit d2
  | _ => false
  end.

(** ** Data model ([types.ts]) *)

Inductive TimerMode := focus | break.
Inductive AmbientSoundType := rain | cafe | white.

(** A history object: date key -> session count, in insertion order. *)
Definition History := list (string * Z).

(** [h[k] = v]: an existing property keeps its place, a new one goes last. *)
Fixpoint obj_set (h : History) (k : string) (v : Z) : History :=
  match h with
  | [] => [(k, v)]
  | (k', v') :: h' =>
      if String.eqb k' k then (k', v) :: h' else (k', v') :: obj_set h' k v
  end.

Definition Object_keys (h : History) : list string := map fst h.
Definition Object_values (h : History) : list Z := map snd h.

(** The statistics record; [H] is what the [history] property holds: a
    history object in a [UserStats], possibly nothing in an object read back
    from storage. *)
Record StatsOf (H : Type) := mkStats {
  todaySessions : Z;
  weekSessions : Z;
  dailyGoal : Z;
  lastUpdate : Z;
  weekStartDate : Z;
  totalMinutesToday : Z;
  totalMinutesWeek : Z;
  longestStreak : Z;
  currentStreak : Z;
  history : H
}.
Arguments mkStats {H}.
Arguments todaySessions {H}.
Arguments weekSessions {H}.
Arguments dailyGoal {H}.
Arguments lastUpdate {H}.
Arguments weekStartDate {H}.
Arguments totalMinutesToday {H}.
Arguments totalMinutesWeek {H}.
Arguments longestStreak {H}.
Arguments currentStreak {H}.
Arguments history {H}.

Definition UserStats := StatsOf History.

(** What [JSON.parse] yields for a stored statistics text: the [history]
    property may be absent (a record written before the history feature). *)
Definition ParsedStats := StatsOf (option History).

Definition with_history {H H'} (s : StatsOf H) (h : H') : StatsOf H' :=
  mkStats (todaySessions s) (weekSessions s) (dailyGoal s) (lastUpdate s)
    (weekStartDate s) (totalMinutesToday s) (totalMinutesWeek s)
    (longestStreak s) (currentStreak s) h.

Record AppSettings := mkSettings {
  darkMode : bool;
  ambientSound : bool;
  ambientSoundType : AmbientSoundType;
  ambientVolume : Q;
  focusDuration : Z;
  breakDuration : Z
}.

(** A stored settings object: any property may be absent. *)
Record ParsedSettings := mkParsedSettings {
  p_darkMode : option bool;
  p_ambientSound : option bool;
  p_ambientSoundType : option AmbientSoundType;
  p_ambientVolume : option Q;
  p_focusDuration : option Z;
  p_breakDuration : option Z
}.

(** ** [localStorage] and JSON *)

(** A stored text, by what [JSON.parse] makes of it: the empty text, a text
    that [JSON.parse] rejects, or the text of an object. *)
Inductive Blob (A : Type) :=
  | EmptyText
  | Malformed (text : string)
  | Json (a : A).
Arguments EmptyText {A}.
Arguments Malformed {A}.
Arguments Json {A}.

Inductive JsError := SyntaxError.

(** The outcome of an evaluation that may throw. *)
Inductive Completion (A : Type) :=
  | Normal (a : A)
  | Throw (e : JsError).
Arguments Normal {A}.
Arguments Throw {A}.

Definition JSON_parse {A} (b : Blob A) : Completion A :=
  match b with
  | Json a => Normal a
  | EmptyText | Malformed _ => Throw SyntaxError
  end.

(** [!stored] for the result of [getItem]: [null] and the empty text are
    falsy. *)
Definition falsy {A} (stored : option (Blob A)) : bool :=
  match stored with
  | None | Some EmptyText => true
  | Some _ => false
  end.

Definition JSON_stringify_stats (stats : UserStats) : Blob ParsedStats :=
  Json (with_history stats (Some (history stats))).

Definition JSON_stringify_settings (s : AppSettings) : Blob ParsedSettings :=
  Json (mkParsedSettings (Some (darkMode s)) (Some (ambientSound s))
          (Some (ambientSoundType s)) (Some (ambientVolume s))
          (Some (focusDuration s)) (Some (breakDuration s))).

Record Storage := mkStorage {
  STATS_KEY : option (Blob ParsedStats);
  SETTINGS_KEY : option (Blob ParsedSettings)
}.

(** The state the store works on: the storage and the state of the module.
    [loadTime] is what the clock read when the module was loaded (its
    constants are computed once, then).  [mockHistory] is the module-level
    object of that name; it is the [history] property of [DEFAULT_STATS], and
    [getStats] writes to it when the record it rolls over is a shallow copy
    of the defaults. *)
Record World := mkWorld {
  loadTime : Z;
  mockHistory : History;
  localStorage : Storage
}.

(** ** The store ([utils/storage.ts]) *)

Section Store.

Variable tz : Z.

(** Returns a YYYY-MM-DD string in local time. *)
Definition getDateKey (date : Z) : string :=
  let year := getFullYear tz date in
  let month := padStart 2 zero_char (String_of (getMonth tz date + 1)) in
  let day := padStart 2 zero_char (String_of (getDate tz date)) in
  String_of year +:+ "-" +:+ month +:+ "-" +:+ day.

Definition mockCounts : list Z := [5; 2; 6; 3; 4; 1; 7; 3; 2; 5].

(** [mockCounts[i] || 2] *)
Definition mockCount_or_2 (i : nat) : Z :=
  match mockCounts !! i with
  | Some v => if v =? 0 then 2 else v
  | None => 2
  end.

(** One round of the loop of [generateMockHistory], for [i] from 1 on. *)
Definition mockHistory_step (today : Z) (history : History) (i : nat) : History :=
  let d := setDate tz today (getDate tz today - Z.of_nat i) in
  obj_set history (getDateKey d) (mockCount_or_2 (i - 1)).

(** [generateMockHistory()] when the clock reads [today]. *)
Definition generateMockHistory (today : Z) : History :=
  fold_left (mockHistory_step today) (seq 1 10) [].

Definition sessionsToday : Z := 3.

Definition sum_values (l : list Z) : Z := fold_left Z.add l 0.

(** [Object.values(mockHistory).slice(0, 6).reduce((a, b) => a + b, 0)] *)
Definition sessionsPast6Days (mockHistory : History) : Z :=
  sum_values (take 6 (Object_values mockHistory)).

Definition totalWeekSessions (mockHistory : History) : Z :=
  sessionsToday + sessionsPast6Days mockHistory.

(** The [DEFAULT_STATS] object: constants computed when the module is
    loaded, and the shared [mockHistory] object. *)
Definition DEFAULT_STATS (w : World) : UserStats :=
  let totalWeekSessions :=
    totalWeekSessions (generateMockHistory (loadTime w)) in
  {| todaySessions := sessionsToday;
     weekSessions := totalWeekSessions;
     dailyGoal := 4;
     lastUpdate := loadTime w;
     weekStartDate := loadTime w - 4 * 24 * 60 * 60 * 1000;
     totalMinutesToday := sessionsToday * 25;
     totalMinutesWeek := totalWeekSessions * 25;
     longestStreak := 12;
     currentStreak := 5;
     history := mockHistory w |}.

Definition DEFAULT_SETTINGS : AppSettings :=
  {| darkMode := false;
     ambientSound := false;
     ambientSoundType := rain;
     ambientVolume := (1 # 2)%Q;
     focusDuration := 25;
     breakDuration := 5 |}.

Definition saveStats (w : World) (stats : UserStats) : World :=
  mkWorld (loadTime w) (mockHistory w)
    (mkStorage (Some (JSON_stringify_stats stats))
       (SETTINGS_KEY (localStorage w))).

Definition saveSettings (w : World) (settings : AppSettings) : World :=
  mkWorld (loadTime w) (mockHistory w)
    (mkStorage (STATS_KEY (localStorage w))
       (Some (JSON_stringify_settings settings))).

(** The migration of a parsed record without history entries. *)
Definition migrate (now : Z) (stats : ParsedStats) : UserStats :=
  {| todaySessions := todaySessions stats;
     weekSessions := weekSessions stats;
     dailyGoal := dailyGoal stats;
     lastUpdate := lastUpdate stats;
     weekStartDate := weekStartDate stats;
     totalMinutesToday := totalMinutesToday stats;
     totalMinutesWeek := totalMinutesWeek stats;
     longestStreak := Z.max (longestStreak stats) 12;
     currentStreak := 5;
     history := generateMockHistory now |}.

(** [!stats.history || Object.keys(stats.history).length === 0] *)
Definition history_missing (stats : ParsedStats) : bool :=
  match history stats with
  | None => true
  | Some h => (length (Object_keys h) =? 0)%nat
  end.

(** The first part of [getStats], the reading of the stored text: the record
    to work on, whether its [history] is the shared [mockHistory] object, and
    the world after the writes done so far.  The clock reads [now] throughout
    one call. *)
Definition loadStats (w : World) (now : Z) : UserStats * bool * World :=
  let stored := STATS_KEY (localStorage w) in
  let fromDefaults := (DEFAULT_STATS w, true, saveStats w (DEFAULT_STATS w)) in
  if falsy stored then fromDefaults
  else
    match stored with
    | None => fromDefaults
    | Some text =>
        match JSON_parse text with
        | Normal stats =>
            if history_missing stats
            then (migrate now stats, false, saveStats w (migrate now stats))
            else (with_history stats (default [] (history stats)), false, w)
        | Throw _ => fromDefaults
        end
    end.

(** [Math.ceil(a / b)] for [b > 0]. *)
Definition ceil_div (a b : Z) : Z := - ((- a) `div` b).

Definition dayChanged (now : Z) (stats : UserStats) : bool :=
  negb (String.eqb (getDateKey now) (getDateKey (lastUpdate stats))).

(** The body of the daily reset and streak logic. *)
Definition dailyReset (now : Z) (stats : UserStats) : UserStats :=
  let lastUpdateDate := lastUpdate stats in
  let lastUpdateStr := getDateKey lastUpdateDate in
  let history1 := obj_set (history stats) lastUpdateStr (todaySessions stats) in
  let diffTime := Z.abs (now - lastUpdateDate) in
  let diffDays := ceil_div diffTime (1000 * 60 * 60 * 24) in
  let currentStreak1 :=
    if diffDays <=? 1 then
      if 0 <? todaySessions stats then currentStreak stats + 1
      else currentStreak stats
    else 0 in
  let longestStreak1 :=
    if longestStreak stats <? currentStreak1 then currentStreak1
    else longestStreak stats in
  {| todaySessions := 0;
     weekSessions := weekSessions stats;
     dailyGoal := dailyGoal stats;
     lastUpdate := now;
     weekStartDate := weekStartDate stats;
     totalMinutesToday := 0;
     totalMinutesWeek := totalMinutesWeek stats;
     longestStreak := longestStreak1;
     currentStreak := currentStreak1;
     history := history1 |}.

Definition weekElapsed (now : Z) (stats : UserStats) : bool :=
  7 <=? (now - weekStartDate stats) `div` (1000 * 60 * 60 * 24).

(** The body of the weekly reset. *)
Definition weeklyReset (now : Z) (stats : UserStats) : UserStats :=
  {| todaySessions := todaySessions stats;
     weekSessions := 0;
     dailyGoal := dailyGoal stats;
     lastUpdate := lastUpdate stats;
     weekStartDate := now;
     totalMinutesToday := totalMinutesToday stats;
     totalMinutesWeek := 0;
     longestStreak := longestStreak stats;
     currentStreak := currentStreak stats;
     history := history stats |}.

(** A write to [stats.history] is a write to [mockHistory] when the two are
    the same object. *)
Definition share_history (aliased : bool) (w : World) (stats : UserStats) : World :=
  if aliased then mkWorld (loadTime w) (history stats) (localStorage w) else w.

(** [getStats()] when the clock reads [now]. *)
Definition getStats (w : World) (now : Z) : UserStats * World :=
  let '(stats, aliased, w1) := loadStats w now in
  let '(stats2, w2) :=
    if dayChanged now stats then
      let stats' := dailyReset now stats in
      (stats', saveStats (share_history aliased w1 stats') stats')
    else (stats, w1) in
  if weekElapsed now stats2 then
    let stats' := weeklyReset now stats2 in
    (stats', saveStats w2 stats')
  else (stats2, w2).

(** [{ ...DEFAULT_SETTINGS, ...parsed }] *)
Definition merge_settings (d : AppSettings) (p : ParsedSettings) : AppSettings :=
  {| darkMode := default (darkMode d) (p_darkMode p);
     ambientSound := default (ambientSound d) (p_ambientSound p);
     ambientSoundType := default (ambientSoundType d) (p_ambientSoundType p);
     ambientVolume := default (ambientVolume d) (p_ambientVolume p);
     focusDuration := default (focusDuration d) (p_focusDuration p);
     breakDuration := default (breakDuration d) (p_breakDuration p) |}.

(** [getSettings()]: the parse is not guarded, so its exception propagates. *)
Definition getSettings (w : World) : Completion AppSettings :=
  let stored := SETTINGS_KEY (localStorage w) in
  if falsy stored then Normal DEFAULT_SETTINGS
  else
    match stored with
    | None => Normal DEFAULT_SETTINGS
    | Some text =>
        match JSON_parse text with
        | Normal parsed => Normal (merge_settings DEFAULT_SETTINGS parsed)
        | Throw e => Throw e
        end
    end.

(** The record [getStats] works on once the stored text is read. *)
Definition loaded (w : World) (now : Z) : UserStats :=
  fst (fst (loadStats w now)).

(** The two resets of [getStats], on a record. *)
Definition rollover (now : Z) (stats : UserStats) : UserStats :=
  let stats2 := if dayChanged now stats then dailyReset now stats else stats in
  if weekElapsed now stats2 then weeklyReset now stats2 else stats2.

(** The key of the [i]-th day before [today]. *)
Definition key_back (today : Z) (i : nat) : string :=
  getDateKey (today - Z.of_nat i * Calendar.msPerDay).

(** The world right after the module is loaded at [loadTime]. *)
Definition module_init (loadTime : Z) (storage : Storage) : World :=
  mkWorld loadTime (generateMockHistory loadTime) storage.

End Store.

Arguments getDateKey : simpl never.
Arguments generateMockHistory : simpl never.

(** ** The statistics updates of [App.tsx] *)

Record AppState := mkApp {
  settings : AppSettings;
  mode : TimerMode;
  timeLeft : Z;
  isActive : bool;
  stats : UserStats
}.

Definition duration_of (s : AppSettings) (m : TimerMode) : Z :=
  match m with focus => focusDuration s | break => breakDuration s end.

Definition handleSwitchMode (newMode : TimerMode) (a : AppState) : AppState :=
  mkApp (settings a) newMode (duration_of (settings a) newMode * 60) false
    (stats a).

(** The [newStats] object of [completeSession]. *)
Definition newStats (stats : UserStats) (minutesCompleted now : Z) : UserStats :=
  {| todaySessions := todaySessions stats + 1;
     weekSessions := weekSessions stats + 1;
     dailyGoal := dailyGoal stats;
     lastUpdate := now;
     weekStartDate := weekStartDate stats;
     totalMinutesToday := totalMinutesToday stats + minutesCompleted;
     totalMinutesWeek := totalMinutesWeek stats + minutesCompleted;
     longestStreak := longestStreak stats;
     currentStreak := currentStreak stats;
     history := history stats |}.

Definition setStats (ns : UserStats) (a : AppState) : AppState :=
  mkApp (settings a) (mode a) (timeLeft a) (isActive a) ns.

(** [completeSession()] when the clock reads [now]. *)
Definition completeSession (now : Z) (aw : AppState * World) : AppState * World :=
  let '(a, w) := aw in
  match mode a with
  | focus =>
      let minutesCompleted := focusDuration (settings a) in
      let ns := newStats (stats a) minutesCompleted now in
      (handleSwitchMode break (setStats ns a), saveStats w ns)
  | break => (handleSwitchMode focus a, w)
  end.

Definition with_dailyGoal (s : UserStats) (g : Z) : UserStats :=
  {| todaySessions := todaySessions s;
     weekSessions := weekSessions s;
     dailyGoal := g;
     lastUpdate := lastUpdate s;
     weekStartDate := weekStartDate s;
     totalMinutesToday := totalMinutesToday s;
     totalMinutesWeek := totalMinutesWeek s;
     longestStreak := longestStreak s;
     currentStreak := currentStreak s;
     history := history s |}.

(** The minus button of the daily objective. *)
Definition decrementGoal (aw : AppState * World) : AppState * World :=
  let '(a, w) := aw in
  let ns := with_dailyGoal (stats a) (Z.max 1 (dailyGoal (stats a) - 1)) in
  (setStats ns a, saveStats w ns).

(** The plus button of the daily objective. *)
Definition incrementGoal (aw : AppState * World) : AppState * World :=
  let '(a, w) := aw in
  let ns := with_dailyGoal (stats a) (dailyGoal (stats a) + 1) in
  (setStats ns a, saveStats w ns).

(** A run of session recordings, each with its minutes and its clock
    reading. *)
Definition recordSessions (calls : list (Z * Z)) (stats : UserStats) : UserStats :=
  fold_left (fun s c => newStats s (fst c) (snd c)) calls stats.

(** Two records that differ in [dailyGoal] at most. *)
Definition same_but_dailyGoal (s s' : UserStats) : Prop :=
  todaySessions s' = todaySessions s /\ weekSessions s' = weekSessions s /\
  lastUpdate s' = lastUpdate s /\ weekStartDate s' = weekStartDate s /\
  totalMinutesToday s' = totalMinutesToday s /\
  totalMinutesWeek s' = totalMinutesWeek s /\
  longestStreak s' = longestStreak s /\ currentStreak s' = currentStreak s /\
  history s' = history s.

(** ** More of [App.tsx]: the dashboard, the timer and the settings *)

(** [h[k]]: nothing when the object has no such property. *)
Fixpoint obj_get (h : History) (k : string) : option Z :=
  match h with
  | [] => None
  | (k', v') :: h' => if String.eqb k' k then Some v' else obj_get h' k
  end.

(** [h[k] || 0] *)
Definition obj_get_or_0 (h : History) (k : string) : Z :=
  match obj_get h k with
  | Some v => if v =? 0 then 0 else v
  | None => 0
  end.

(** [formatMinutes] of the dashboard; [%] is the remainder that takes the
    sign of the dividend. *)
Definition formatMinutes (m : Z) : string :=
  let hours := m `div` 60 in
  let mins := Z.rem m 60 in
  if 0 <? hours then String_of hours +:+ "h " +:+ String_of mins +:+ "m"
  else String_of mins +:+ "m".

(** [formatTime] of the timer. *)
Definition formatTime (seconds : Z) : string :=
  let mins := seconds `div` 60 in
  let secs := Z.rem seconds 60 in
  pad2 mins +:+ ":" +:+ pad2 secs.

Definition colon : Ascii.ascii := Ascii.Ascii false true false true true true false false.

(** The shape MM:SS: two digits, a colon, two digits. *)
Definition is_MM_SS (s : string) : bool :=
  match s with
  | String m1 (String m2 (String c (String s1 (String s2 EmptyString)))) =>
      is_digit m1 && is_digit m2 && Ascii.eqb c colon
      && is_digit s1 && is_digit s2
  | _ => false
  end.

(** ECMA-262 WeekDay: 0 is Sunday. *)
Definition WeekDay (t : Z) : Z := (Calendar.Day t + 4) `mod` 7.

(** The en-US short name of a day of the week. *)
Definition weekday_short (n : Z) : string :=
  if n =? 0 then "Sun" else if n =? 1 then "Mon" else if n =? 2 then "Tue"
  else if n =? 3 then "Wed" else if n =? 4 then "Thu" else if n =? 5 then "Fri"
  else "Sat".

(** [d.toLocaleDateString('en-US', { weekday: 'short' })] *)
Definition toLocaleWeekday (tz d : Z) : string :=
  weekday_short (WeekDay (LocalTime tz d)).

(** An entry of [chartData]. *)
Record ChartEntry := mkEntry {
  day : string;
  count : Z;
  isToday : bool
}.

(** The entry of index [i] of [chartData]. *)
Definition chartEntry (tz today : Z) (stats : UserStats) (i : nat) : ChartEntry :=
  let todayStr := getDateKey tz today in
  let d := setDate tz today (getDate tz today - (6 - Z.of_nat i)) in
  let dateStr := getDateKey tz d in
  let count :=
    if String.eqb dateStr todayStr then todaySessions stats
    else obj_get_or_0 (history stats) dateStr in
  {| day := toLocaleWeekday tz d;
     count := count;
     isToday := String.eqb dateStr todayStr |}.

(** [chartData] of the dashboard when the clock reads [today]. *)
Definition chartData (tz today : Z) (stats : UserStats) : list ChartEntry :=
  map (chartEntry tz today stats) (seq 0 7).

(** [toggleTimer] *)
Definition toggleTimer (a : AppState) : AppState :=
  mkApp (settings a) (mode a) (timeLeft a) (negb (isActive a)) (stats a).

(** [resetTimer]; [isFocusMode] is the state of that name. *)
Definition resetTimer (isFocusMode : bool) (a : AppState) : AppState :=
  if negb isFocusMode
  then mkApp (settings a) (mode a) (duration_of (settings a) (mode a) * 60)
         false (stats a)
  else a.

(** One firing of the interval callback when the clock reads [now]: the state
    once the updates the callback queues are applied, and the storage as the
    callback leaves it.  The interval only exists while the timer is active.
    On the last second the callback calls [completeSession], whose
    [setTimeLeft] (and the effect on [mode]) leave the full duration of the
    new mode, not the 0 the updater returns.  The callback does not read the
    storage; the render that follows it does, see [render]. *)
Definition tick (now : Z) (aw : AppState * World) : AppState * World :=
  let '(a, w) := aw in
  if isActive a then
    if timeLeft a <=? 1 then completeSession now (a, w)
    else (mkApp (settings a) (mode a) (timeLeft a - 1) (isActive a) (stats a), w)
  else (a, w).


(** [setSettings(s)] followed by the effect on the two durations and the
    mode: when a duration has changed and the timer is not active, the time
    left becomes the full duration of the current mode. *)
Definition applySettings (s : AppSettings) (a : AppState) : AppState :=
  let changed :=
    negb (focusDuration s =? focusDuration (settings a))
    || negb (breakDuration s =? breakDuration (settings a)) in
  if changed && negb (isActive a)
  then mkApp s (mode a) (duration_of s (mode a) * 60) (isActive a) (stats a)
  else mkApp s (mode a) (timeLeft a) (isActive a) (stats a).

(** What a user can do to the timer, and the firing of the interval. *)
Inductive TimerEvent :=
  | Tick (now : Z)
  | Toggle
  | Reset (isFocusMode : bool)
  | SwitchMode (m : TimerMode)
  | ApplySettings (s : AppSettings)
  | GoalDown
  | GoalUp.

(** The handler of an event alone: the state it leaves and the storage right
    after it returns.  What the renders of the component do to the storage is
    [render]; a run of handlers and renders is [appRun]. *)
Definition timerStep (aw : AppState * World) (e : TimerEvent) : AppState * World :=
  match e with
  | Tick now => tick now aw
  | Toggle => (toggleTimer (fst aw), snd aw)
  | Reset f => (resetTimer f (fst aw), snd aw)
  | SwitchMode m => (handleSwitchMode m (fst aw), snd aw)
  | ApplySettings s => (applySettings s (fst aw), snd aw)
  | GoalDown => decrementGoal aw
  | GoalUp => incrementGoal aw
  end.

Definition timerRun (es : list TimerEvent) (aw : AppState * World) : AppState * World :=
  fold_left timerStep es aw.

(** Durations as the sliders of the settings dialog give them. *)
Definition durations_ok (s : AppSettings) : Prop :=
  1 <= focusDuration s /\ 1 <= breakDuration s.

(** The events whose settings have such durations. *)
Definition event_ok (e : TimerEvent) : Prop :=
  match e with
  | ApplySettings s => durations_ok s
  | _ => True
  end.








(** What every timer event keeps, relative to a starting state [a0]. *)
Definition kept_from (a0 a : AppState) : Prop :=
  durations_ok (settings a) /\ 1 <= timeLeft a /\ 1 <= dailyGoal (stats a)
  /\ history (stats a) = history (stats a0)
  /\ currentStreak (stats a) = currentStreak (stats a0)
  /\ longestStreak (stats a) = longestStreak (stats a0)
  /\ weekStartDate (stats a) = weekStartDate (stats a0)
  /\ todaySessions (stats a0) <= todaySessions (stats a)
  /\ totalMinutesToday (stats a0) <= totalMinutesToday (stats a).

Module CalendarFacts.
Import Calendar.

(** Linear arithmetic with floor division and remainder by constants. *)
Ltac dlia := Z.div_mod_to_equations; lia.

Lemma DayFromYear_succ y : DayFromYear (y + 1) = DayFromYear y + DaysInYear y.
Proof.
  unfold DayFromYear, DaysInYear, InLeapYear_of.
  destruct (Z.eqb_spec (y `mod` 4) 0), (Z.eqb_spec (y `mod` 100) 0),
    (Z.eqb_spec (y `mod` 400) 0); simpl; dlia.
Qed.

Lemma YearFromDay_spec d :
  DayFromYear (YearFromDay d) <= d < DayFromYear (YearFromDay d + 1).
Proof.
  unfold YearFromDay.
  set (y := 1970 + (400 * d) `div` 146097).
  assert (Hlo : DayFromYear (y - 1) <= d) by (unfold DayFromYear, y; dlia).
  assert (Hhi : d < DayFromYear (y + 2)) by (unfold DayFromYear, y; dlia).
  destruct (Z.leb_spec (DayFromYear (y + 1)) d).
  - replace (y + 1 + 1) with (y + 2) by lia. lia.
  - destruct (Z.leb_spec (DayFromYear y) d).
    + lia.
    + replace (y - 1 + 1) with y by lia. lia.
Qed.

Lemma leapAdj_range y : 0 <= leapAdj y <= 1.
Proof. unfold leapAdj. destruct (InLeapYear_of y); lia. Qed.

Lemma DaysInYear_leapAdj y : DaysInYear y = 365 + leapAdj y.
Proof. unfold DaysInYear, leapAdj. destruct (InLeapYear_of y); lia. Qed.

Lemma DayWithinYear_range t :
  0 <= DayWithinYear t < 365 + leapAdj (YearFromTime t).
Proof.
  unfold DayWithinYear, YearFromTime.
  pose proof (YearFromDay_spec (Day t)) as H.
  rewrite DayFromYear_succ, DaysInYear_leapAdj in H. lia.
Qed.

(** The month table and its inverse agree on every day of a year. *)
Lemma month_table leap dwy :
  0 <= leap <= 1 -> 0 <= dwy < 365 + leap ->
  0 <= monthOfDay leap dwy <= 11 /\
  1 <= dwy - monthStart leap (monthOfDay leap dwy) + 1 <= 31.
Proof.
  intros Hl Hd. unfold monthOfDay.
  repeat (match goal with
          | |- context [?a <? ?b] => destruct (Z.ltb_spec a b)
          end; [ cbn; lia | ]).
  cbn; lia.
Qed.

Lemma MonthFromTime_range t : 0 <= MonthFromTime t <= 11.
Proof.
  unfold MonthFromTime.
  apply month_table; [apply leapAdj_range | apply DayWithinYear_range].
Qed.

Lemma DateFromTime_range t : 1 <= DateFromTime t <= 31.
Proof.
  unfold DateFromTime, MonthFromTime.
  apply month_table; [apply leapAdj_range | apply DayWithinYear_range].
Qed.

(** [MakeDay] on the fields of [t], with another day of the month. *)
Lemma MakeDay_fields t dt :
  MakeDay (YearFromTime t) (MonthFromTime t) dt = Day t + (dt - DateFromTime t).
Proof.
  pose proof (MonthFromTime_range t) as Hm.
  unfold MakeDay.
  rewrite (Z.div_small (MonthFromTime t) 12), (Z.mod_small (MonthFromTime t) 12)
    by lia.
  rewrite Z.add_0_r. unfold DateFromTime, DayWithinYear. lia.
Qed.

(** Year, month and day of the month determine the day number. *)
Lemma fields_inj t1 t2 :
  YearFromTime t1 = YearFromTime t2 ->
  MonthFromTime t1 = MonthFromTime t2 ->
  DateFromTime t1 = DateFromTime t2 ->
  Day t1 = Day t2.
Proof.
  intros Hy Hm Hd.
  pose proof (MakeDay_fields t1 (DateFromTime t1)) as E1.
  pose proof (MakeDay_fields t2 (DateFromTime t2)) as E2.
  rewrite Hy, Hm, Hd in E1. lia.
Qed.

(** The fields depend on the day number only. *)
Lemma fields_of_Day t1 t2 :
  Day t1 = Day t2 ->
  YearFromTime t1 = YearFromTime t2 /\
  MonthFromTime t1 = MonthFromTime t2 /\
  DateFromTime t1 = DateFromTime t2.
Proof.
  intros E.
  unfold DateFromTime, MonthFromTime, DayWithinYear, YearFromTime.
  rewrite E. auto.
Qed.

Lemma Day_shift t i : Day (t - i * msPerDay) = Day t - i.
Proof. unfold Day, msPerDay. dlia. Qed.

Lemma TimeWithinDay_decomp t : Day t * msPerDay + TimeWithinDay t = t.
Proof. unfold Day, TimeWithinDay, msPerDay. dlia. Qed.

End CalendarFacts.

(** ** Facts about the strings *)

Module StringFacts.

Lemma append_nil (s : string) : "" +:+ s = s.
Proof. reflexivity. Qed.

Lemma append_cons c (a s : string) : String c a +:+ s = String c (a +:+ s).
Proof. reflexivity. Qed.

Lemma length_append (a s : string) :
  String.length (a +:+ s) = (String.length a + String.length s)%nat.
Proof.
  induction a as [|c a IH]; [reflexivity|].
  rewrite append_cons. simpl. by rewrite IH.
Qed.

(** Two concatenations with suffixes of one length agree part by part. *)
Lemma app_inj_suffix (a1 a2 s1 s2 : string) :
  String.length s1 = String.length s2 ->
  a1 +:+ s1 = a2 +:+ s2 -> a1 = a2 /\ s1 = s2.
Proof.
  revert a2. induction a1 as [|c a1 IH]; intros [|c2 a2] Hl E;
    rewrite ?append_nil, ?append_cons in E.
  - auto.
  - exfalso. apply (f_equal String.length) in E. simpl in E.
    rewrite length_append in E. lia.
  - exfalso. apply (f_equal String.length) in E. simpl in E.
    rewrite length_append in E. lia.
  - injection E as -> E. destruct (IH a2 Hl E) as [-> ->]. auto.
Qed.

(** Linear arithmetic on [N] with division by constants. *)
Ltac nlia := zify; Z.to_euclidean_division_equations; lia.

Lemma pretty_N_char_digit n : is_digit (pretty_N_char n) = true.
Proof. unfold pretty_N_char. by repeat case_match. Qed.

Lemma pretty_N_1 (x : N) :
  (0 < x < 10)%N -> pretty x = String (pretty_N_char x) "".
Proof.
  intros H. unfold pretty, pretty_N. case_decide; [nlia|].
  rewrite pretty_N_go_step by nlia.
  rewrite (N.div_small x 10), (N.mod_small x 10) by nlia.
  by rewrite pretty_N_go_0.
Qed.

Lemma pretty_N_2 (x : N) :
  (10 <= x < 100)%N ->
  pretty x = String (pretty_N_char (x `div` 10))
               (String (pretty_N_char (x `mod` 10)) "").
Proof.
  intros H. unfold pretty, pretty_N. case_decide; [nlia|].
  assert (0 < x `div` 10 < 10)%N by nlia.
  rewrite !pretty_N_go_step by nlia.
  rewrite (N.div_small (x `div` 10) 10), (N.mod_small (x `div` 10) 10) by nlia.
  by rewrite pretty_N_go_0.
Qed.

Lemma pretty_N_4 (x : N) :
  (1000 <= x < 10000)%N ->
  exists c1 c2 c3 c4,
    pretty x = String (pretty_N_char c1) (String (pretty_N_char c2)
              (String (pretty_N_char c3) (String (pretty_N_char c4) ""))).
Proof.
  intros H. unfold pretty, pretty_N. case_decide; [nlia|].
  set (x1 := (x `div` 10)%N). set (x2 := (x1 `div` 10)%N).
  set (x3 := (x2 `div` 10)%N).
  assert (0 < x1)%N by (unfold x1; nlia).
  assert (0 < x2)%N by (unfold x2, x1; nlia).
  assert (0 < x3)%N by (unfold x3, x2, x1; nlia).
  assert (x3 `div` 10 = 0)%N as E by (unfold x3, x2, x1; nlia).
  rewrite (pretty_N_go_step x) by nlia. fold x1.
  rewrite (pretty_N_go_step x1) by done. fold x2.
  rewrite (pretty_N_go_step x2) by done. fold x3.
  rewrite (pretty_N_go_step x3) by done.
  rewrite E, pretty_N_go_0. eauto.
Qed.

(** The padded text of a number below 100: its two decimal digits. *)
Lemma pad2_digits n :
  0 < n < 100 ->
  pad2 n = String (pretty_N_char (Z.to_N n `div` 10))
             (String (pretty_N_char (Z.to_N n `mod` 10)) "").
Proof.
  intros Hn. destruct n as [|q|q]; try lia.
  unfold pad2, String_of.
  change (pretty (Z.pos q)) with (pretty (N.pos q)).
  change (Z.to_N (Z.pos q)) with (N.pos q).
  destruct (decide (N.pos q < 10)%N) as [Hlt|Hge].
  - rewrite pretty_N_1 by nlia.
    rewrite (N.div_small (N.pos q) 10), (N.mod_small (N.pos q) 10) by nlia.
    reflexivity.
  - rewrite pretty_N_2 by nlia. reflexivity.
Qed.

Lemma pad2_row n :
  1 <= n <= 31 ->
  String.length (pad2 n) = 2%nat /\ all_digits (pad2 n) = true /\
  forall m, 1 <= m <= 31 -> pad2 n = pad2 m -> n = m.
Proof.
  intros Hn. rewrite pad2_digits by lia. split; [done|]. split.
  - simpl. by rewrite !pretty_N_char_digit.
  - intros m Hm. rewrite pad2_digits by lia. intros [= E1 E2].
    apply pretty_N_char_inj in E1; [| nlia ..].
    apply pretty_N_char_inj in E2; [| nlia ..].
    nlia.
Qed.

Lemma pad2_length n : 1 <= n <= 31 -> String.length (pad2 n) = 2%nat.
Proof. intros H. apply (pad2_row n H). Qed.

Lemma pad2_inj n m : 1 <= n <= 31 -> 1 <= m <= 31 -> pad2 n = pad2 m -> n = m.
Proof. intros Hn Hm. apply (pad2_row n Hn); done. Qed.

End StringFacts.

(** ** Facts about date keys and the mock history *)

Section DateKeyFacts.
Import Calendar CalendarFacts StringFacts.

Variable tz : Z.

Lemma getDateKey_unfold t :
  getDateKey tz t =
  String_of (getFullYear tz t) +:+ "-" +:+ pad2 (getMonth tz t + 1) +:+ "-"
  +:+ pad2 (getDate tz t).
Proof. reflexivity. Qed.

Lemma getMonth_range t : 1 <= getMonth tz t + 1 <= 31.
Proof. pose proof (MonthFromTime_range (LocalTime tz t)). unfold getMonth. lia. Qed.

Lemma getDate_range t : 1 <= getDate tz t <= 31.
Proof. apply DateFromTime_range. Qed.

Lemma key_tail_length t :
  String.length
    ("-" +:+ pad2 (getMonth tz t + 1) +:+ "-" +:+ pad2 (getDate tz t)) = 6%nat.
Proof.
  rewrite !length_append, !pad2_length by
    (apply getMonth_range || apply getDate_range).
  reflexivity.
Qed.

(** Instants of one local day have one key. *)
Lemma getDateKey_same_day a b :
  localDay tz a = localDay tz b -> getDateKey tz a = getDateKey tz b.
Proof.
  intros E. unfold localDay in E.
  destruct (fields_of_Day _ _ E) as (Hy & Hm & Hd).
  rewrite !getDateKey_unfold. unfold getFullYear, getMonth, getDate.
  by rewrite Hy, Hm, Hd.
Qed.

(** Instants of different local days have different keys. *)
Lemma getDateKey_inj a b :
  getDateKey tz a = getDateKey tz b -> localDay tz a = localDay tz b.
Proof.
  rewrite !getDateKey_unfold. intros E.
  apply app_inj_suffix in E as [Ey E];
    [| by rewrite !key_tail_length].
  rewrite !append_cons, !append_nil in E. injection E as E.
  apply app_inj_suffix in E as [Em E].
  2:{ simpl. by rewrite !pad2_length by apply getDate_range. }
  injection E as Ed.
  apply (inj pretty) in Ey.
  apply pad2_inj in Em; [| apply getMonth_range ..].
  apply pad2_inj in Ed; [| apply getDate_range ..].
  apply fields_inj; unfold getFullYear, getMonth, getDate in *; lia.
Qed.

Lemma getDateKey_eqb a b :
  String.eqb (getDateKey tz a) (getDateKey tz b)
  = (localDay tz a =? localDay tz b).
Proof.
  destruct (Z.eqb_spec (localDay tz a) (localDay tz b)) as [E|N].
  - apply String.eqb_eq. by apply getDateKey_same_day.
  - apply String.eqb_neq. intros E. by apply N, getDateKey_inj.
Qed.

Lemma localDay_shift t i : localDay tz (t - i * msPerDay) = localDay tz t - i.
Proof.
  unfold localDay, LocalTime.
  replace (t - i * msPerDay + tz) with (t + tz - i * msPerDay) by lia.
  apply Day_shift.
Qed.

(** [d.setDate(d.getDate() - i)] goes back [i] whole days. *)
Lemma setDate_back d i :
  setDate tz d (getDate tz d - i) = d - i * msPerDay.
Proof.
  unfold setDate, getDate, UTC, MakeDate.
  rewrite MakeDay_fields.
  pose proof (TimeWithinDay_decomp (LocalTime tz d)) as H.
  unfold LocalTime in *. lia.
Qed.

End DateKeyFacts.

(** ** Facts about history objects *)

Section HistoryFacts.

Lemma obj_set_fresh (h : History) k v :
  k ∉ Object_keys h -> obj_set h k v = h ++ [(k, v)].
Proof.
  induction h as [|[k' v'] h IH]; intros Hk; simpl; [done|].
  apply not_elem_of_cons in Hk as [Hne Hk].
  destruct (String.eqb_spec k' k) as [->|_]; [done|].
  by rewrite IH.
Qed.

Lemma obj_set_length (h : History) k v : (length h <= length (obj_set h k v))%nat.
Proof.
  induction h as [|[k' v'] h IH]; simpl; [lia|].
  destruct (String.eqb k' k); simpl; lia.
Qed.

Lemma obj_set_nonempty (h : History) k v : obj_set h k v <> [].
Proof.
  destruct h as [|[k' v'] h]; simpl; [done|].
  by destruct (String.eqb k' k).
Qed.

Lemma fold_left_pointwise {A B} (f g : A -> B -> A) (l : list B) :
  (forall a b, f a b = g a b) ->
  forall a, fold_left f l a = fold_left g l a.
Proof.
  intros E. induction l as [|b l IH]; intros a; simpl; [done|].
  by rewrite E, IH.
Qed.

(** A loop that sets pairwise distinct fresh keys appends them in order. *)
Lemma fold_obj_set_fresh (f : nat -> string) (g : nat -> Z) (l : list nat) :
  forall acc : History,
  NoDup (Object_keys acc ++ map f l) ->
  fold_left (fun h i => obj_set h (f i) (g i)) l acc
  = acc ++ map (fun i => (f i, g i)) l.
Proof.
  induction l as [|i l IH]; intros acc Hnd; simpl.
  - by rewrite app_nil_r.
  - simpl in Hnd. apply NoDup_app in Hnd as (Hacc & Hdisj & Hl).
    apply NoDup_cons in Hl as [Hi Hl].
    assert (Hfresh : f i ∉ Object_keys acc).
    { intros Hin. apply (Hdisj _ Hin). left. }
    rewrite (obj_set_fresh _ _ _ Hfresh), IH.
    + by rewrite <- app_assoc.
    + unfold Object_keys in *. rewrite map_app. simpl.
      rewrite <- app_assoc. simpl.
      apply NoDup_app. split; [done|]. split.
      * intros x Hx Hin. apply elem_of_cons in Hin as [->|Hin]; [done|].
        apply (Hdisj _ Hx). by right.
      * by apply NoDup_cons.
Qed.

End HistoryFacts.

Section MockHistoryFacts.
Import Calendar StringFacts.

Variable tz : Z.

Lemma key_back_inj today : Inj (=) (=) (key_back tz today).
Proof.
  intros i j E. unfold key_back in E.
  apply getDateKey_inj in E. rewrite !localDay_shift in E. lia.
Qed.

(** The mock history: the ten days before [today], most recent first, with
    the counts of [mockCounts]. *)
Lemma generateMockHistory_eq today :
  generateMockHistory tz today
  = map (fun i => (key_back tz today i, mockCount_or_2 (i - 1))) (seq 1 10).
Proof.
  unfold generateMockHistory.
  transitivity
    (fold_left
       (fun h i => obj_set h (key_back tz today i) (mockCount_or_2 (i - 1)))
       (seq 1 10) []).
  - apply fold_left_pointwise. intros h i. unfold mockHistory_step, key_back.
    by rewrite setDate_back.
  - rewrite fold_obj_set_fresh; [done|].
    change (NoDup (key_back tz today <$> seq 1 10)).
    apply (@NoDup_fmap_2 _ _ (key_back tz today) (key_back_inj today)).
    apply NoDup_seq.
Qed.

Lemma generateMockHistory_values today :
  Object_values (generateMockHistory tz today) = mockCounts.
Proof.
  rewrite generateMockHistory_eq. unfold Object_values.
  rewrite map_map. reflexivity.
Qed.

Lemma generateMockHistory_keys today :
  Object_keys (generateMockHistory tz today) = map (key_back tz today) (seq 1 10).
Proof.
  rewrite generateMockHistory_eq. unfold Object_keys.
  by rewrite map_map.
Qed.

Lemma generateMockHistory_length today :
  length (generateMockHistory tz today) = 10%nat.
Proof. by rewrite generateMockHistory_eq, length_map, length_seq. Qed.

Lemma generateMockHistory_NoDup today :
  NoDup (Object_keys (generateMockHistory tz today)).
Proof.
  rewrite generateMockHistory_keys.
  apply (@NoDup_fmap_2 _ _ (key_back tz today) (key_back_inj today)), NoDup_seq.
Qed.

Lemma totalWeekSessions_mock today :
  totalWeekSessions (generateMockHistory tz today) = 24.
Proof.
  unfold totalWeekSessions, sessionsPast6Days.
  by rewrite generateMockHistory_values.
Qed.

End MockHistoryFacts.

(** ** Facts about [getStats] *)

Section StoreFacts.
Import Calendar CalendarFacts.

Variable tz : Z.

Lemma getStats_rollover w now :
  fst (getStats tz w now) = rollover tz now (loaded tz w now).
Proof.
  unfold getStats, rollover, loaded.
  destruct (loadStats tz w now) as [[s al] w1]. simpl.
  destruct (dayChanged tz now s); simpl;
    match goal with |- context [weekElapsed ?n ?x] =>
      destruct (weekElapsed n x) end; reflexivity.
Qed.

Lemma dayChanged_localDay now (s : UserStats) :
  dayChanged tz now s = negb (localDay tz now =? localDay tz (lastUpdate s)).
Proof. unfold dayChanged. by rewrite getDateKey_eqb. Qed.

Lemma weekElapsed_true now (s : UserStats) :
  weekElapsed now s = true <-> 7 * msPerDay <= now - weekStartDate s.
Proof.
  unfold weekElapsed, msPerDay. rewrite Z.leb_le. split; intros; dlia.
Qed.

Lemma weekElapsed_false now (s : UserStats) :
  weekElapsed now s = false <-> now - weekStartDate s < 7 * msPerDay.
Proof.
  unfold weekElapsed, msPerDay. rewrite Z.leb_gt. split; intros; dlia.
Qed.

Lemma loadStats_default w now :
  (STATS_KEY (localStorage w) = None \/
   STATS_KEY (localStorage w) = Some EmptyText \/
   exists text, STATS_KEY (localStorage w) = Some (Malformed text)) ->
  loadStats tz w now = (DEFAULT_STATS tz w, true, saveStats w (DEFAULT_STATS tz w)).
Proof.
  unfold loadStats. intros [E|[E|[text E]]]; by rewrite E.
Qed.

Lemma loadStats_migrate w now p :
  STATS_KEY (localStorage w) = Some (Json p) -> history_missing p = true ->
  loadStats tz w now = (migrate tz now p, false, saveStats w (migrate tz now p)).
Proof. unfold loadStats. intros -> E. simpl. by rewrite E. Qed.

Lemma loadStats_keep w now p :
  STATS_KEY (localStorage w) = Some (Json p) -> history_missing p = false ->
  loadStats tz w now = (with_history p (default [] (history p)), false, w).
Proof. unfold loadStats. intros -> E. simpl. by rewrite E. Qed.

Lemma history_missing_false p :
  history_missing p = false -> exists h, history p = Some h /\ h <> [].
Proof.
  unfold history_missing. destruct (history p) as [h|]; [|done].
  intros E. exists h. split; [done|]. by destruct h.
Qed.

(** After the first part of [getStats] the storage holds the record. *)
Lemma loadStats_persisted w now :
  STATS_KEY (localStorage (snd (loadStats tz w now)))
  = Some (JSON_stringify_stats (loaded tz w now)).
Proof.
  unfold loaded.
  destruct (STATS_KEY (localStorage w)) as [[| text | p]|] eqn:E.
  - by rewrite loadStats_default by auto.
  - by rewrite loadStats_default by eauto.
  - destruct (history_missing p) eqn:Hm.
    + by rewrite (loadStats_migrate _ _ _ E Hm).
    + rewrite (loadStats_keep _ _ _ E Hm). simpl. rewrite E.
      destruct (history_missing_false _ Hm) as (h & Hh & _).
      destruct p; simpl in *; subst. reflexivity.
  - by rewrite loadStats_default by auto.
Qed.

(** Whatever [getStats] returns is what the storage holds afterwards. *)
Lemma getStats_persisted w now :
  STATS_KEY (localStorage (snd (getStats tz w now)))
  = Some (JSON_stringify_stats (fst (getStats tz w now))).
Proof.
  pose proof (loadStats_persisted w now) as H.
  unfold getStats, loaded in *.
  destruct (loadStats tz w now) as [[s al] w1]. simpl in H.
  destruct (dayChanged tz now s); simpl;
    match goal with |- context [weekElapsed ?n ?x] =>
      destruct (weekElapsed n x) end; simpl; done.
Qed.

(** The streak fields after the daily reset. *)
Lemma dailyReset_streaks now (s : UserStats) :
  currentStreak (dailyReset tz now s) <= longestStreak (dailyReset tz now s)
  /\ longestStreak s <= longestStreak (dailyReset tz now s).
Proof.
  unfold dailyReset. simpl.
  repeat match goal with
         | |- context [if ?b then _ else _] => destruct b eqn:?
         end; lia.
Qed.

End StoreFacts.

(** * The properties of the specification *)

(** ** The date key *)

Section DateKeyFormat.
Import StringFacts.

(** Every year from 1000 to 9999 prints as four digits. *)
Lemma four_digit_year y :
  1000 <= y <= 9999 ->
  String.length (String_of y) = 4%nat /\ all_digits (String_of y) = true.
Proof.
  intros Hy. destruct y as [|q|q]; try lia.
  unfold String_of. change (pretty (Z.pos q)) with (pretty (N.pos q)).
  destruct (pretty_N_4 (N.pos q)) as (c1 & c2 & c3 & c4 & ->); [nlia|].
  split; [done|]. simpl. by rewrite !pretty_N_char_digit.
Qed.

Lemma is_YYYY_MM_DD_compose (y m d : string) :
  String.length y = 4%nat -> all_digits y = true ->
  String.length m = 2%nat -> all_digits m = true ->
  String.length d = 2%nat -> all_digits d = true ->
  is_YYYY_MM_DD (y +:+ "-" +:+ m +:+ "-" +:+ d) = true.
Proof.
  destruct y as [|y1 [|y2 [|y3 [|y4 [|? ?]]]]]; try discriminate.
  destruct m as [|m1 [|m2 [|? ?]]]; try discriminate.
  destruct d as [|d1 [|d2 [|? ?]]]; try discriminate.
  intros _ Hy _ Hm _ Hd. simpl in Hy, Hm, Hd.
  rewrite !andb_true_r in *.
  apply andb_prop in Hy as [Hy1 Hy]. apply andb_prop in Hy as [Hy2 Hy].
  apply andb_prop in Hy as [Hy3 Hy4].
  apply andb_prop in Hm as [Hm1 Hm2]. apply andb_prop in Hd as [Hd1 Hd2].
  rewrite !append_cons, !append_nil. unfold is_YYYY_MM_DD.
  rewrite Hy1, Hy2, Hy3, Hy4, Hm1, Hm2, Hd1, Hd2. reflexivity.
Qed.

End DateKeyFormat.

(** What holds of C9 for every instant.  The key of an instant is the local
    year as [String] prints it, a dash, the local month number and the local
    day of the month, each on two digits.  Two instants have the same key
    exactly when they fall on the same local calendar day, so the key is
    stable within a day and changes across local midnight.  The key has the
    shape YYYY-MM-DD when the local year is between 1000 and 9999. *)
Theorem getDateKey_local_day (tz a b : Z) :
  (getDateKey tz a = getDateKey tz b <-> localDay tz a = localDay tz b)
  /\ getDateKey tz a
     = String_of (getFullYear tz a) +:+ "-" +:+ pad2 (getMonth tz a + 1)
       +:+ "-" +:+ pad2 (getDate tz a)
  /\ String.length (pad2 (getMonth tz a + 1)) = 2%nat
  /\ all_digits (pad2 (getMonth tz a + 1)) = true
  /\ String.length (pad2 (getDate tz a)) = 2%nat
  /\ all_digits (pad2 (getDate tz a)) = true
  /\ (1000 <= getFullYear tz a <= 9999 ->
      is_YYYY_MM_DD (getDateKey tz a) = true).
Proof.
  destruct (StringFacts.pad2_row _ (getMonth_range tz a)) as (Hml & Hmd & _).
  destruct (StringFacts.pad2_row _ (getDate_range tz a)) as (Hdl & Hdd & _).
  split; [|split; [reflexivity|]].
  - split; [apply getDateKey_inj | apply getDateKey_same_day].
  - repeat (split; [done|]). intros Hy.
    rewrite getDateKey_unfold.
    destruct (four_digit_year _ Hy) as [Hl Hd].
    by apply is_YYYY_MM_DD_compose.
Qed.

(** The instants 2024-01-01T10:00Z and 2024-01-01T23:59:59.999Z, in a zone one
    hour east of UTC: the second is past local midnight. *)
Lemma getDateKey_local_day_witness :
  1000 <= getFullYear 3600000 1704103200000 <= 9999
  /\ (getDateKey 3600000 1704103200000 = getDateKey 3600000 1704153599999
      <-> localDay 3600000 1704103200000 = localDay 3600000 1704153599999)
  /\ getDateKey 3600000 1704103200000 = "2024-01-01"
  /\ is_YYYY_MM_DD (getDateKey 3600000 1704103200000) = true.
Proof.
  assert (Hy : 1000 <= getFullYear 3600000 1704103200000 <= 9999)
    by (vm_compute; split; discriminate).
  destruct (getDateKey_local_day 3600000 1704103200000 1704153599999)
    as (H1 & H2 & _ & _ & _ & _ & H3).
  split; [exact Hy|]. split; [exact H1|]. split; [exact H2 | exact (H3 Hy)].
Defined.

(** C9 on the code.  The function is documented as returning a YYYY-MM-DD
    string, and only the month and the day are padded: at 999-12-31T00:00Z
    the key is "999-12-31", which is not of the shape YYYY-MM-DD. *)
Lemma getDateKey_year_999 :
  getFullYear 0 (-30610310400000) = 999
  /\ getDateKey 0 (-30610310400000) = "999-12-31"
  /\ is_YYYY_MM_DD (getDateKey 0 (-30610310400000)) = false.
Proof. repeat split; vm_compute; reflexivity. Qed.

(** ** The first run *)

Section FirstRun.
Import Calendar CalendarFacts.

Lemma same_day_close tz a b :
  localDay tz a = localDay tz b -> - msPerDay < a - b < msPerDay.
Proof. unfold localDay, LocalTime, Day, msPerDay. intros. dlia. Qed.

Lemma DEFAULT_STATS_init tz loadTime storage :
  DEFAULT_STATS tz (module_init tz loadTime storage)
  = {| todaySessions := 3; weekSessions := 24; dailyGoal := 4;
       lastUpdate := loadTime; weekStartDate := loadTime - 345600000;
       totalMinutesToday := 75; totalMinutesWeek := 600;
       longestStreak := 12; currentStreak := 5;
       history := map (fun i => (key_back tz loadTime i, mockCount_or_2 (i - 1)))
                    (seq 1 10) |}.
Proof.
  unfold DEFAULT_STATS, module_init. simpl.
  rewrite totalWeekSessions_mock, generateMockHistory_eq. reflexivity.
Qed.

Lemma rollover_same_day tz now (s : UserStats) :
  localDay tz now = localDay tz (lastUpdate s) ->
  now - weekStartDate s < 7 * msPerDay ->
  rollover tz now s = s.
Proof.
  intros Hd Hw. unfold rollover.
  rewrite dayChanged_localDay, Hd, Z.eqb_refl. simpl.
  apply weekElapsed_false in Hw. by rewrite Hw.
Qed.

End FirstRun.

(** C1, as the code has it.  When no statistics text is stored, the record
    [getStats] starts from and persists is a copy of [DEFAULT_STATS]: 3
    sessions and 75 minutes today, 24 sessions and 600 minutes this week,
    a daily goal of 4, a current streak of 5, a longest streak of 12, the
    load time of the module as [lastUpdate], and the module's [mockHistory]
    object as history.  In a module that has just been loaded (at
    [loadTime0]), [mockHistory] holds the ten mock entries of the ten days
    before the load.  On the local day the module was loaded the record is
    also what [getStats] returns and leaves in the storage. *)
Theorem getStats_first_run (tz : Z) (w : World) (now : Z)
    (loadTime0 : Z) (storage0 : Storage) :
  falsy (STATS_KEY (localStorage w)) = true ->
  let defaults :=
    {| todaySessions := 3; weekSessions := 24; dailyGoal := 4;
       lastUpdate := loadTime w; weekStartDate := loadTime w - 345600000;
       totalMinutesToday := 75; totalMinutesWeek := 600;
       longestStreak := 12; currentStreak := 5;
       history := mockHistory w |} in
  let fresh := module_init tz loadTime0 storage0 in
  loadStats tz w now = (defaults, true, saveStats w defaults)
  /\ STATS_KEY (localStorage (snd (loadStats tz w now)))
     = Some (JSON_stringify_stats defaults)
  /\ mockHistory fresh
     = map (fun i => (key_back tz loadTime0 i, mockCount_or_2 (i - 1))) (seq 1 10)
  /\ Object_values (mockHistory fresh) = [5; 2; 6; 3; 4; 1; 7; 3; 2; 5]
  /\ (localDay tz now = localDay tz (loadTime w) ->
      fst (getStats tz w now) = defaults
      /\ STATS_KEY (localStorage (snd (getStats tz w now)))
         = Some (JSON_stringify_stats defaults)).
Proof.
  intros Hf defaults fresh.
  assert (Hd : DEFAULT_STATS tz w = defaults).
  { unfold DEFAULT_STATS, defaults. by rewrite totalWeekSessions_mock. }
  assert (Hl : loadStats tz w now = (defaults, true, saveStats w defaults)).
  { rewrite <- Hd. apply loadStats_default.
    destruct (STATS_KEY (localStorage w)) as [[| text | p]|]; try discriminate;
      auto. }
  split; [exact Hl|]. split; [by rewrite Hl|].
  split; [apply generateMockHistory_eq|].
  split; [apply generateMockHistory_values|].
  intros Hday.
  assert (Hr : fst (getStats tz w now) = defaults).
  { rewrite getStats_rollover. unfold loaded. rewrite Hl. cbn [fst].
    apply rollover_same_day; cbn [defaults lastUpdate weekStartDate]; [done|].
    pose proof (same_day_close _ _ _ Hday). unfold Calendar.msPerDay in *. lia. }
  split; [exact Hr|]. by rewrite getStats_persisted, Hr.
Qed.

(** A module loaded at 2024-01-01T10:00Z with nothing stored, read an hour
    later. *)
Lemma getStats_first_run_witness :
  let w := module_init 0 1704103200000 (mkStorage None None) in
  falsy (STATS_KEY (localStorage w)) = true
  /\ localDay 0 1704106800000 = localDay 0 (loadTime w)
  /\ fst (getStats 0 w 1704106800000)
     = {| todaySessions := 3; weekSessions := 24; dailyGoal := 4;
          lastUpdate := 1704103200000; weekStartDate := 1703757600000;
          totalMinutesToday := 75; totalMinutesWeek := 600;
          longestStreak := 12; currentStreak := 5;
          history := mockHistory w |}
  /\ Object_values (mockHistory w) = [5; 2; 6; 3; 4; 1; 7; 3; 2; 5].
Proof.
  intros w.
  assert (Hf : falsy (STATS_KEY (localStorage w)) = true) by reflexivity.
  assert (Hday : localDay 0 1704106800000 = localDay 0 (loadTime w))
    by reflexivity.
  destruct (getStats_first_run 0 w 1704106800000 1704103200000
              (mkStorage None None) Hf) as (_ & _ & _ & Hv & H).
  destruct (H Hday) as (Hr & _).
  split; [exact Hf|]. split; [exact Hday|]. split; [exact Hr | exact Hv].
Defined.

(** C1 as stated fails: with nothing stored, a module loaded at
    2024-01-01T10:00Z and [getStats] called at once, the record is not
    zeroed and its history is not empty. *)
Lemma getStats_first_run_not_zeroed :
  let r := fst (getStats 0 (module_init 0 1704103200000 (mkStorage None None))
                  1704103200000) in
  ~ (todaySessions r = 0 /\ weekSessions r = 0 /\ totalMinutesToday r = 0
     /\ totalMinutesWeek r = 0 /\ dailyGoal r = 4 /\ history r = []).
Proof. intros r [H _]. vm_compute in H. discriminate. Qed.

(** ** Text that does not parse *)

(** [getStats] guards the parse: a text that [JSON.parse] rejects is handled
    as no text at all. *)
Lemma getStats_malformed tz w now text :
  STATS_KEY (localStorage w) = Some (Malformed text) ->
  getStats tz w now
  = getStats tz (mkWorld (loadTime w) (mockHistory w)
                   (mkStorage None (SETTINGS_KEY (localStorage w)))) now.
Proof.
  intros E. unfold getStats.
  rewrite !loadStats_default by (simpl; eauto). reflexivity.
Qed.

Lemma getSettings_malformed w text :
  SETTINGS_KEY (localStorage w) = Some (Malformed text) ->
  getSettings w = Throw SyntaxError.
Proof. unfold getSettings. by intros ->. Qed.

(** C4 on the code.  With the text [{] stored for the settings,
    [getSettings] does not return the defaults: the exception of
    [JSON.parse] reaches the caller.  With the same text stored for the
    statistics, [getStats] returns what it returns when nothing is stored. *)
Theorem getSettings_unguarded_parse :
  let storage := mkStorage (Some (Malformed "{")) (Some (Malformed "{")) in
  let w := module_init 0 1704103200000 storage in
  getSettings w = Throw SyntaxError
  /\ getStats 0 w 1704103200000
     = getStats 0 (module_init 0 1704103200000
                     (mkStorage None (Some (Malformed "{")))) 1704103200000.
Proof.
  intros storage w. split.
  - exact (getSettings_malformed w "{" eq_refl).
  - exact (getStats_malformed 0 w 1704103200000 "{" eq_refl).
Qed.

(** ** The weekly reset *)

Section Weekly.
Import Calendar CalendarFacts.

Lemma loaded_Json tz w now p :
  STATS_KEY (localStorage w) = Some (Json p) ->
  loaded tz w now
  = if history_missing p then migrate tz now p
    else with_history p (default [] (history p)).
Proof.
  intros E. unfold loaded. destruct (history_missing p) eqn:Hm.
  - by rewrite (loadStats_migrate _ _ _ _ E Hm).
  - by rewrite (loadStats_keep _ _ _ _ E Hm).
Qed.

Lemma rollover_week tz now (s : UserStats) :
  let r := rollover tz now s in
  (7 * msPerDay <= now - weekStartDate s ->
   weekSessions r = 0 /\ totalMinutesWeek r = 0 /\ weekStartDate r = now)
  /\ (now - weekStartDate s < 7 * msPerDay ->
      weekSessions r = weekSessions s
      /\ totalMinutesWeek r = totalMinutesWeek s
      /\ weekStartDate r = weekStartDate s).
Proof.
  unfold rollover.
  set (s2 := if dayChanged tz now s then dailyReset tz now s else s).
  assert (Hs2 : weekSessions s2 = weekSessions s
                /\ totalMinutesWeek s2 = totalMinutesWeek s
                /\ weekStartDate s2 = weekStartDate s)
    by (unfold s2; destruct (dayChanged tz now s); done).
  destruct Hs2 as (H1 & H2 & H3).
  assert (Hw : weekElapsed now s2 = weekElapsed now s)
    by (unfold weekElapsed; by rewrite H3).
  simpl. split; intros H.
  - apply weekElapsed_true in H. by rewrite Hw, H.
  - apply weekElapsed_false in H. by rewrite Hw, H.
Qed.

End Weekly.

(** C6.  For every stored record and every call of [getStats]: if at least
    seven whole days (7 * 86400000 ms) have passed from [weekStartDate] to
    now, the record returned has [weekSessions] and [totalMinutesWeek] 0 and
    [weekStartDate] now; otherwise these three fields are those of the stored
    record. *)
Theorem weekly_reset_rule (tz : Z) (w : World) (now : Z) (p : ParsedStats) :
  STATS_KEY (localStorage w) = Some (Json p) ->
  let r := fst (getStats tz w now) in
  (7 * Calendar.msPerDay <= now - weekStartDate p ->
   weekSessions r = 0 /\ totalMinutesWeek r = 0 /\ weekStartDate r = now)
  /\ (now - weekStartDate p < 7 * Calendar.msPerDay ->
      weekSessions r = weekSessions p
      /\ totalMinutesWeek r = totalMinutesWeek p
      /\ weekStartDate r = weekStartDate p).
Proof.
  intros E r. unfold r. rewrite getStats_rollover.
  pose proof (rollover_week tz now (loaded tz w now)) as H.
  rewrite (loaded_Json _ _ _ _ E) in *.
  destruct (history_missing p); exact H.
Qed.

(** A record whose week started on 2023-12-25T10:00Z, read seven days later
    to the millisecond. *)
Lemma weekly_reset_rule_witness :
  let p := mkStats 2 9 4 1704103200000 1703498400000 50 225 5 3
             (Some [("2023-12-31", 1)]) in
  let w := mkWorld 0 [] (mkStorage (Some (Json p)) None) in
  let r := fst (getStats 0 w 1704103200000) in
  weekSessions r = 0 /\ totalMinutesWeek r = 0 /\ weekStartDate r = 1704103200000.
Proof.
  intros p w r.
  apply (weekly_reset_rule 0 w 1704103200000 p eq_refl).
  vm_compute. discriminate.
Defined.

(** ** Recording sessions *)

Section Recording.

Lemma fold_add_acc (l : list Z) :
  forall a, fold_left Z.add l a = a + fold_left Z.add l 0.
Proof.
  induction l as [|x l IH]; intros a; cbn [fold_left]; [lia|].
  rewrite (IH (a + x)), (IH (0 + x)). lia.
Qed.

Lemma recordSessions_counts (calls : list (Z * Z)) :
  forall s : UserStats,
  todaySessions (recordSessions calls s)
  = todaySessions s + Z.of_nat (length calls)
  /\ totalMinutesToday (recordSessions calls s)
     = totalMinutesToday s + sum_values (map fst calls).
Proof.
  unfold recordSessions, sum_values.
  induction calls as [|[m t] calls IH]; intros s.
  - simpl. lia.
  - cbn [fold_left map length fst snd].
    destruct (IH (newStats s m t)) as [-> ->]. simpl todaySessions.
    simpl totalMinutesToday. split; [lia|].
    rewrite (fold_add_acc (map fst calls) (0 + m)). lia.
Qed.

Lemma rollover_zeroes tz now (s : UserStats) :
  dayChanged tz now s = true ->
  todaySessions (rollover tz now s) = 0
  /\ totalMinutesToday (rollover tz now s) = 0.
Proof.
  intros E. unfold rollover. rewrite E.
  by destruct (weekElapsed now (dailyReset tz now s)).
Qed.

End Recording.

(** C7.  Completing a session in focus mode replaces the record by one with
    [todaySessions] and [weekSessions] one higher, [totalMinutesToday] and
    [totalMinutesWeek] higher by the focus duration, and [lastUpdate] the
    current time, and stores it.  Hence after any run of recordings on a
    record that has just been rolled over to a new day, [todaySessions] is
    the number of recordings and [totalMinutesToday] the sum of their
    minutes. *)
Theorem completeSession_counts (tz : Z) (a : AppState) (w : World)
    (now now0 : Z) (s0 : UserStats) (calls : list (Z * Z)) :
  mode a = focus ->
  dayChanged tz now0 s0 = true ->
  let minutes := focusDuration (settings a) in
  let ns := stats (fst (completeSession now (a, w))) in
  let rolled := rollover tz now0 s0 in
  ns = newStats (stats a) minutes now
  /\ todaySessions ns = todaySessions (stats a) + 1
  /\ weekSessions ns = weekSessions (stats a) + 1
  /\ totalMinutesToday ns = totalMinutesToday (stats a) + minutes
  /\ totalMinutesWeek ns = totalMinutesWeek (stats a) + minutes
  /\ lastUpdate ns = now
  /\ STATS_KEY (localStorage (snd (completeSession now (a, w))))
     = Some (JSON_stringify_stats ns)
  /\ todaySessions (recordSessions calls rolled) = Z.of_nat (length calls)
  /\ totalMinutesToday (recordSessions calls rolled)
     = sum_values (map fst calls).
Proof.
  intros Hmode Hday minutes ns rolled.
  assert (Hns : ns = newStats (stats a) minutes now).
  { unfold ns, completeSession. by rewrite Hmode. }
  destruct (recordSessions_counts calls rolled) as [H1 H2].
  destruct (rollover_zeroes tz now0 s0 Hday) as [Z1 Z2].
  fold rolled in Z1, Z2.
  assert (Hst : STATS_KEY (localStorage (snd (completeSession now (a, w))))
                = Some (JSON_stringify_stats ns)).
  { unfold ns, completeSession. by rewrite Hmode. }
  rewrite Hns in *. simpl. repeat split; try done; lia.
Qed.

(** Three sessions of 25, 25 and 50 minutes on 2024-01-02, on a record last
    updated the day before. *)
Lemma completeSession_counts_witness :
  let s0 := mkStats 2 9 4 1704103200000 1703930400000 50 225 5 3
              [("2023-12-31", 1)] in
  let calls := [(25, 1704190000000); (25, 1704195000000); (50, 1704200000000)] in
  let rolled := rollover 0 1704186000000 s0 in
  let a := mkApp DEFAULT_SETTINGS focus 1500 true rolled in
  let w := mkWorld 0 [] (mkStorage None None) in
  mode a = focus
  /\ dayChanged 0 1704186000000 s0 = true
  /\ todaySessions (stats (fst (completeSession 1704190000000 (a, w)))) = 0 + 1
  /\ todaySessions (recordSessions calls rolled) = 3
  /\ totalMinutesToday (recordSessions calls rolled) = 100.
Proof.
  intros s0 calls rolled a w.
  assert (Hday : dayChanged 0 1704186000000 s0 = true) by (vm_compute; reflexivity).
  destruct (completeSession_counts 0 a w
              1704190000000 1704186000000 s0 calls eq_refl Hday)
    as (_ & H0 & _ & _ & _ & _ & _ & H1 & H2).
  split; [reflexivity|]. split; [exact Hday|].
  split; [exact H0|]. split; [exact H1 | exact H2].
Defined.

(** ** The daily goal *)

(** C10.  On a record with a daily goal of at least 1, the minus button sets
    the goal to [max 1 (goal - 1)] and the plus button to [goal + 1]; in both
    cases the goal stays at least 1, no other field of the record changes,
    and the new record is stored. *)
Theorem goal_buttons (a : AppState) (w : World) :
  1 <= dailyGoal (stats a) ->
  let down := stats (fst (decrementGoal (a, w))) in
  let up := stats (fst (incrementGoal (a, w))) in
  dailyGoal down = Z.max 1 (dailyGoal (stats a) - 1)
  /\ 1 <= dailyGoal down
  /\ same_but_dailyGoal (stats a) down
  /\ STATS_KEY (localStorage (snd (decrementGoal (a, w))))
     = Some (JSON_stringify_stats down)
  /\ dailyGoal up = dailyGoal (stats a) + 1
  /\ 1 <= dailyGoal up
  /\ same_but_dailyGoal (stats a) up
  /\ STATS_KEY (localStorage (snd (incrementGoal (a, w))))
     = Some (JSON_stringify_stats up).
Proof.
  intros Hg down up. unfold down, up, same_but_dailyGoal. simpl.
  repeat split; lia.
Qed.

Lemma goal_buttons_witness :
  let s := mkStats 2 9 1 1704103200000 1703930400000 50 225 5 3
             [("2023-12-31", 1)] in
  let a := mkApp DEFAULT_SETTINGS focus 1500 false s in
  let w := mkWorld 0 [] (mkStorage None None) in
  1 <= dailyGoal (stats a)
  /\ dailyGoal (stats (fst (decrementGoal (a, w)))) = Z.max 1 (1 - 1)
  /\ 1 <= dailyGoal (stats (fst (decrementGoal (a, w)))).
Proof.
  intros s a w.
  assert (Hg : 1 <= dailyGoal (stats a)) by (simpl; lia).
  destruct (goal_buttons a w Hg) as (H1 & H2 & _).
  split; [exact Hg|]. split; [exact H1 | exact H2].
Defined.

(** ** Streaks *)

Section Streaks.
Import Calendar CalendarFacts.

Variable tz : Z.

Lemma ceil_div_le_1 a : (ceil_div a (1000 * 60 * 60 * 24) <=? 1) = (a <=? msPerDay).
Proof.
  unfold ceil_div, msPerDay.
  destruct (Z.leb_spec a 86400000); [apply Z.leb_le | apply Z.leb_gt]; dlia.
Qed.

(** The streak after the daily reset, by the time elapsed. *)
Lemma dailyReset_currentStreak now (s : UserStats) :
  currentStreak (dailyReset tz now s)
  = if Z.abs (now - lastUpdate s) <=? msPerDay
    then (if 0 <? todaySessions s then currentStreak s + 1 else currentStreak s)
    else 0.
Proof. unfold dailyReset. simpl. by rewrite ceil_div_le_1. Qed.

Lemma rollover_currentStreak now (s : UserStats) :
  currentStreak (rollover tz now s)
  = if dayChanged tz now s then currentStreak (dailyReset tz now s)
    else currentStreak s.
Proof.
  unfold rollover.
  destruct (dayChanged tz now s);
    match goal with |- context [weekElapsed ?n ?x] =>
      destruct (weekElapsed n x) end; reflexivity.
Qed.

(** Two local days apart is more than 24 hours apart. *)
Lemma two_days_apart a b :
  1 < localDay tz a - localDay tz b -> msPerDay < a - b.
Proof. unfold localDay, LocalTime, Day, msPerDay. intros. dlia. Qed.

Lemma rollover_invariant now (s : UserStats) :
  currentStreak s <= longestStreak s ->
  currentStreak (rollover tz now s) <= longestStreak (rollover tz now s).
Proof.
  intros H. unfold rollover.
  pose proof (dailyReset_streaks tz now s) as [Hd _].
  set (d := dailyReset tz now s) in *. clearbody d.
  destruct (dayChanged tz now s);
    match goal with |- context [weekElapsed ?n ?x] =>
      destruct (weekElapsed n x) end; simpl weeklyReset; done.
Qed.

Lemma rollover_longestStreak now (s : UserStats) :
  longestStreak s <= longestStreak (rollover tz now s).
Proof.
  unfold rollover.
  pose proof (dailyReset_streaks tz now s) as [_ Hd].
  set (d := dailyReset tz now s) in *. clearbody d.
  destruct (dayChanged tz now s);
    match goal with |- context [weekElapsed ?n ?x] =>
      destruct (weekElapsed n x) end; simpl; lia.
Qed.

Lemma rollover_history_length now (s : UserStats) :
  (length (history s) <= length (history (rollover tz now s)))%nat.
Proof.
  unfold rollover.
  pose proof (obj_set_length (history s) (getDateKey tz (lastUpdate s))
                (todaySessions s)) as Hl.
  change (obj_set _ _ _) with (history (dailyReset tz now s)) in Hl.
  set (d := dailyReset tz now s) in *. clearbody d.
  destruct (dayChanged tz now s);
    match goal with |- context [weekElapsed ?n ?x] =>
      destruct (weekElapsed n x) end; simpl; lia.
Qed.

Lemma loaded_invariant w now :
  (forall p, STATS_KEY (localStorage w) = Some (Json p) ->
             currentStreak p <= longestStreak p) ->
  currentStreak (loaded tz w now) <= longestStreak (loaded tz w now).
Proof.
  intros Hp. unfold loaded.
  destruct (STATS_KEY (localStorage w)) as [[| text | p]|] eqn:E.
  - rewrite loadStats_default by auto. simpl. lia.
  - rewrite loadStats_default by eauto. simpl. lia.
  - specialize (Hp p eq_refl). destruct (history_missing p) eqn:Hm.
    + rewrite (loadStats_migrate _ _ _ _ E Hm). simpl. lia.
    + by rewrite (loadStats_keep _ _ _ _ E Hm).
  - rewrite loadStats_default by auto. simpl. lia.
Qed.

End Streaks.

(** C2, as the code has it.  For every stored record and every call of
    [getStats] on another local day than that of [lastUpdate], with [base]
    the stored [currentStreak] (or 5 when the record has no history entries
    and is migrated first): when at most 24 hours have passed since
    [lastUpdate], the streak is [base + 1] if [todaySessions] is at least 1
    and stays [base] if it is 0; when now is two local days or more after the
    day of [lastUpdate] and more than 24 hours after [lastUpdate], the streak
    is 0 whatever [todaySessions] is. *)
Theorem streak_day_gap_rule (tz : Z) (w : World) (now : Z) (p : ParsedStats) :
  STATS_KEY (localStorage w) = Some (Json p) ->
  localDay tz now <> localDay tz (lastUpdate p) ->
  let base := if history_missing p then 5 else currentStreak p in
  let r := fst (getStats tz w now) in
  (Z.abs (now - lastUpdate p) <= Calendar.msPerDay ->
   currentStreak r = if 0 <? todaySessions p then base + 1 else base)
  /\ (1 < localDay tz now - localDay tz (lastUpdate p) ->
      Calendar.msPerDay < now - lastUpdate p ->
      currentStreak r = 0).
Proof.
  intros E Hday base r. unfold r. rewrite getStats_rollover.
  rewrite rollover_currentStreak, dailyReset_currentStreak.
  rewrite dayChanged_localDay.
  assert (Hl : lastUpdate (loaded tz w now) = lastUpdate p
               /\ todaySessions (loaded tz w now) = todaySessions p
               /\ currentStreak (loaded tz w now) = base).
  { rewrite (loaded_Json _ _ _ _ E). unfold base.
    by destruct (history_missing p). }
  destruct Hl as (-> & -> & ->).
  apply Z.eqb_neq in Hday. rewrite Hday. simpl negb. cbv iota.
  split.
  - intros H. apply Z.leb_le in H. by rewrite H.
  - intros _ H.
    assert (Hgt : (Z.abs (now - lastUpdate p) <=? Calendar.msPerDay) = false)
      by (apply Z.leb_gt; lia).
    by rewrite Hgt.
Qed.

(** The record of the scenario of the specification, with a history entry:
    two sessions on 2024-01-01 (last update 10:00Z), read at 09:00Z the next
    day, and read at 09:00Z on 2024-01-05. *)
Lemma streak_day_gap_rule_witness :
  let p := mkStats 2 9 4 1704103200000 1703930400000 50 225 5 3
             (Some [("2023-12-31", 1)]) in
  let w := mkWorld 0 [] (mkStorage (Some (Json p)) None) in
  localDay 0 1704186000000 <> localDay 0 (lastUpdate p)
  /\ currentStreak (fst (getStats 0 w 1704186000000)) = 4
  /\ 1 < localDay 0 1704445200000 - localDay 0 (lastUpdate p)
  /\ Calendar.msPerDay < 1704445200000 - lastUpdate p
  /\ currentStreak (fst (getStats 0 w 1704445200000)) = 0.
Proof.
  intros p w.
  assert (Hday : localDay 0 1704186000000 <> localDay 0 (lastUpdate p))
    by (vm_compute; discriminate).
  assert (Hday' : localDay 0 1704445200000 <> localDay 0 (lastUpdate p))
    by (vm_compute; discriminate).
  assert (Hgap : 1 < localDay 0 1704445200000 - localDay 0 (lastUpdate p))
    by (vm_compute; reflexivity).
  assert (Hlong : Calendar.msPerDay < 1704445200000 - lastUpdate p)
    by (vm_compute; reflexivity).
  split; [exact Hday|]. split.
  { apply (streak_day_gap_rule 0 w 1704186000000 p eq_refl Hday).
    vm_compute. discriminate. }
  split; [exact Hgap|]. split; [exact Hlong|].
  exact (proj2 (streak_day_gap_rule 0 w 1704445200000 p eq_refl Hday')
           Hgap Hlong).
Defined.

(** C2 as stated fails: a record with no session on 2024-01-01 (last update
    10:00Z) and a streak of 3, read at 09:00Z on 2024-01-02, keeps its
    streak of 3. *)
Lemma streak_kept_after_idle_day :
  let p := mkStats 0 9 4 1704103200000 1703930400000 0 225 5 3
             (Some [("2023-12-31", 1)]) in
  let w := mkWorld 0 [] (mkStorage (Some (Json p)) None) in
  let r := fst (getStats 0 w 1704186000000) in
  localDay 0 1704186000000 = localDay 0 (lastUpdate p) + 1
  /\ todaySessions p = 0
  /\ currentStreak r = 3
  /\ currentStreak r <> 0.
Proof. vm_compute. repeat split; discriminate. Qed.

(** The same day D+1 read one hour later than [lastUpdate] was written, 25
    hours on: the streak of a day with two sessions is dropped. *)
Example streak_dropped_after_25_hours :
  let p := mkStats 2 9 4 1704103200000 1703930400000 50 225 5 3
             (Some [("2023-12-31", 1)]) in
  let w := mkWorld 0 [] (mkStorage (Some (Json p)) None) in
  let r := fst (getStats 0 w 1704193200000) in
  localDay 0 1704193200000 = localDay 0 (lastUpdate p) + 1
  /\ currentStreak r = 0.
Proof. vm_compute. split; reflexivity. Qed.

(** ** The migration of a record without history *)

(** C5, as the code has it.  For every stored record whose history is missing
    or empty, the record [getStats] goes on with has the mock history of the
    ten local days before now (ten entries with distinct keys), a current
    streak of 5 and a longest streak of [max stored 12]; the record
    [getStats] returns has at least these ten history entries and a longest
    streak that is not lower than the stored one and not lower than 12.  The
    current streak is set, not compared: it may be lower than the stored
    one. *)
Theorem migration_streaks (tz : Z) (w : World) (now : Z) (p : ParsedStats) :
  STATS_KEY (localStorage w) = Some (Json p) ->
  history_missing p = true ->
  let m := loaded tz w now in
  let r := fst (getStats tz w now) in
  history m = map (fun i => (key_back tz now i, mockCount_or_2 (i - 1))) (seq 1 10)
  /\ NoDup (Object_keys (history m))
  /\ length (history m) = 10%nat
  /\ currentStreak m = 5
  /\ longestStreak m = Z.max (longestStreak p) 12
  /\ (10 <= length (history r))%nat
  /\ longestStreak p <= longestStreak r
  /\ 12 <= longestStreak r.
Proof.
  intros E Hm m r.
  assert (Hl : m = migrate tz now p).
  { unfold m. by rewrite (loaded_Json _ _ _ _ E), Hm. }
  assert (Hr : r = rollover tz now m).
  { unfold r, m. apply getStats_rollover. }
  pose proof (rollover_longestStreak tz now m) as Hls.
  pose proof (rollover_history_length tz now m) as Hhl.
  rewrite <- Hr in Hls, Hhl.
  clearbody r m. subst m. clear Hr.
  assert (H1 : history (migrate tz now p) = generateMockHistory tz now)
    by reflexivity.
  assert (H2 : longestStreak (migrate tz now p) = Z.max (longestStreak p) 12)
    by reflexivity.
  assert (H3 : currentStreak (migrate tz now p) = 5) by reflexivity.
  rewrite H1 in *. rewrite H2 in *. rewrite H3.
  rewrite generateMockHistory_length in Hhl.
  split; [apply generateMockHistory_eq|].
  split; [apply generateMockHistory_NoDup|].
  split; [apply generateMockHistory_length|].
  repeat split; try done; lia.
Qed.

Lemma migration_streaks_witness :
  let p := mkStats 2 9 4 1704103200000 1703930400000 50 225 9 8 None in
  let w := mkWorld 0 [] (mkStorage (Some (Json p)) None) in
  history_missing p = true
  /\ longestStreak (loaded 0 w 1704106800000) = Z.max 9 12
  /\ longestStreak p <= longestStreak (fst (getStats 0 w 1704106800000)).
Proof.
  intros p w.
  destruct (migration_streaks 0 w 1704106800000 p eq_refl eq_refl)
    as (_ & _ & _ & _ & H1 & _ & H2 & _).
  split; [reflexivity|]. split; [exact H1 | exact H2].
Defined.

(** C5 as stated fails for the current streak: a record without history and
    with a streak of 8, read one hour after its last update, comes back with
    a streak of 5. *)
Lemma migration_lowers_currentStreak :
  let p := mkStats 2 9 4 1704103200000 1703930400000 50 225 9 8 None in
  let w := mkWorld 0 [] (mkStorage (Some (Json p)) None) in
  let r := fst (getStats 0 w 1704106800000) in
  history_missing p = true
  /\ currentStreak p = 8
  /\ currentStreak r = 5
  /\ ~ (currentStreak p <= currentStreak r).
Proof. vm_compute. repeat split; try reflexivity. intros H. by apply H. Qed.

(** ** The invariant on streaks *)

(** C8.  If the stored record (when there is one) has
    [currentStreak <= longestStreak], so has the record [getStats] returns,
    whether it comes from the defaults, from a migration or from the stored
    record, rolled over or not; and for every record with
    [currentStreak <= longestStreak] the record after a rollover, after a
    recorded session and after a change of the daily goal has it too. *)
Theorem streak_invariant (tz : Z) (w : World) (now : Z) (s : UserStats)
    (minutes t goal : Z) :
  (forall p, STATS_KEY (localStorage w) = Some (Json p) ->
             currentStreak p <= longestStreak p) ->
  currentStreak s <= longestStreak s ->
  let r := fst (getStats tz w now) in
  currentStreak r <= longestStreak r
  /\ currentStreak (rollover tz now s) <= longestStreak (rollover tz now s)
  /\ currentStreak (dailyReset tz now s) <= longestStreak (dailyReset tz now s)
  /\ currentStreak (weeklyReset now s) <= longestStreak (weeklyReset now s)
  /\ currentStreak (newStats s minutes t) <= longestStreak (newStats s minutes t)
  /\ currentStreak (with_dailyGoal s goal) <= longestStreak (with_dailyGoal s goal).
Proof.
  intros Hp Hs r. split; [|split; [|split]].
  - unfold r. rewrite getStats_rollover.
    by apply rollover_invariant, loaded_invariant.
  - by apply rollover_invariant.
  - apply dailyReset_streaks.
  - simpl. auto.
Qed.

Lemma streak_invariant_witness :
  let p := mkStats 2 9 4 1704103200000 1703930400000 50 225 5 5
             (Some [("2023-12-31", 1)]) in
  let w := mkWorld 0 [] (mkStorage (Some (Json p)) None) in
  let r := fst (getStats 0 w 1704186000000) in
  currentStreak p <= longestStreak p
  /\ currentStreak r <= longestStreak r
  /\ longestStreak r = 6.
Proof.
  intros p w r.
  assert (Hp : forall q, STATS_KEY (localStorage w) = Some (Json q) ->
                         currentStreak q <= longestStreak q).
  { intros q [= <-]. simpl. lia. }
  assert (Hs : currentStreak (with_history p [("2023-12-31", 1)])
               <= longestStreak (with_history p [("2023-12-31", 1)]))
    by (simpl; lia).
  destruct (streak_invariant 0 w 1704186000000 _ 25 1704186000000 4 Hp Hs)
    as (H & _).
  split; [simpl; lia|]. split; [exact H|]. vm_compute. reflexivity.
Defined.

(** ** Reading twice *)

Section Twice.
Import Calendar CalendarFacts.

Variable tz : Z.

Lemma loaded_history_nonempty w now :
  mockHistory w <> [] -> history (loaded tz w now) <> [].
Proof.
  intros Hm. unfold loaded.
  destruct (STATS_KEY (localStorage w)) as [[| text | p]|] eqn:E.
  - by rewrite loadStats_default by auto.
  - by rewrite loadStats_default by eauto.
  - destruct (history_missing p) eqn:Hp.
    + rewrite (loadStats_migrate _ _ _ _ E Hp).
      assert (Hh : history (migrate tz now p) = generateMockHistory tz now)
        by reflexivity.
      cbn [fst]. rewrite Hh. intros Hnil.
      pose proof (generateMockHistory_length tz now) as Hl.
      rewrite Hnil in Hl. discriminate.
    + rewrite (loadStats_keep _ _ _ _ E Hp).
      destruct (history_missing_false _ Hp) as (h & Hh & Hne).
      cbn [fst with_history history]. by rewrite Hh.
  - by rewrite loadStats_default by auto.
Qed.

Lemma rollover_history_nonempty now (s : UserStats) :
  history s <> [] -> history (rollover tz now s) <> [].
Proof.
  intros Hs. unfold rollover.
  pose proof (obj_set_nonempty (history s) (getDateKey tz (lastUpdate s))
                (todaySessions s)) as Hd.
  assert (Hh : history (dailyReset tz now s)
               = obj_set (history s) (getDateKey tz (lastUpdate s))
                   (todaySessions s)) by reflexivity.
  rewrite <- Hh in Hd.
  set (d := dailyReset tz now s) in *. clearbody d.
  destruct (dayChanged tz now s);
    match goal with |- context [weekElapsed ?n ?x] =>
      destruct (weekElapsed n x) end; done.
Qed.

(** After a rollover the record is dated on the local day of the call. *)
Lemma rollover_lastUpdate now (s : UserStats) :
  localDay tz (lastUpdate (rollover tz now s)) = localDay tz now.
Proof.
  unfold rollover. rewrite dayChanged_localDay.
  assert (Hd : lastUpdate (dailyReset tz now s) = now) by reflexivity.
  set (d := dailyReset tz now s) in *. clearbody d.
  destruct (Z.eqb_spec (localDay tz now) (localDay tz (lastUpdate s)));
    cbn [negb];
    match goal with |- context [weekElapsed ?n ?x] =>
      destruct (weekElapsed n x) end; cbn [weeklyReset lastUpdate];
    congruence.
Qed.

(** After a rollover the week is less than seven days old. *)
Lemma rollover_week_young now (s : UserStats) :
  weekElapsed now (rollover tz now s) = false.
Proof.
  unfold rollover.
  set (s2 := if dayChanged tz now s then dailyReset tz now s else s).
  clearbody s2. destruct (weekElapsed now s2) eqn:Hw; [|done].
  apply weekElapsed_false. cbn [weeklyReset weekStartDate].
  unfold msPerDay. lia.
Qed.

(** What the storage holds is read back as it is. *)
Lemma loaded_stored w now (r : UserStats) :
  STATS_KEY (localStorage w) = Some (JSON_stringify_stats r) ->
  history r <> [] ->
  loaded tz w now = r.
Proof.
  intros E Hne. rewrite (loaded_Json _ _ _ _ E).
  destruct r as [a b c d e f g h i hist]. cbn in Hne |- *.
  by destruct hist.
Qed.

(** The shared [mockHistory] object has entries from the load of the module
    on: [getStats] only adds to it. *)
Lemma module_init_mockHistory loadTime storage :
  mockHistory (module_init tz loadTime storage) <> [].
Proof.
  unfold module_init. cbn [mockHistory]. intros Hnil.
  pose proof (generateMockHistory_length tz loadTime) as Hl.
  rewrite Hnil in Hl. discriminate.
Qed.

Lemma getStats_mockHistory w now :
  mockHistory w <> [] -> mockHistory (snd (getStats tz w now)) <> [].
Proof.
  intros Hm. unfold getStats.
  assert (Hw1 : mockHistory (snd (loadStats tz w now)) = mockHistory w).
  { unfold loadStats. destruct (STATS_KEY (localStorage w)) as [[| text | p]|];
      cbn [falsy JSON_parse]; try reflexivity.
    by destruct (history_missing p). }
  destruct (loadStats tz w now) as [[s al] w1]. cbn [snd] in Hw1.
  pose proof (obj_set_nonempty (history s) (getDateKey tz (lastUpdate s))
                (todaySessions s)) as Hd.
  assert (Hh : history (dailyReset tz now s)
               = obj_set (history s) (getDateKey tz (lastUpdate s))
                   (todaySessions s)) by reflexivity.
  rewrite <- Hh in Hd.
  set (d := dailyReset tz now s) in *. clearbody d.
  destruct (dayChanged tz now s), al;
    match goal with |- context [weekElapsed ?n ?x] =>
      destruct (weekElapsed n x) end;
    cbn [snd saveStats share_history mockHistory]; congruence.
Qed.

Lemma weekElapsed_mono now1 now2 (s : UserStats) :
  now2 <= now1 -> weekElapsed now1 s = false -> weekElapsed now2 s = false.
Proof. rewrite !weekElapsed_false. lia. Qed.

End Twice.

(** C3, as the code has it.  Two calls of [getStats] in succession on one
    local day: the second call archives nothing and changes no streak; its
    record has the history, the streaks, today's counters, [lastUpdate] and
    [dailyGoal] of the first.  It is the first record itself unless seven
    days since [weekStartDate] are reached between the two calls, in which
    case the second call does the weekly reset; in particular it is the
    first record when the clock has not advanced. *)
Theorem getStats_twice (tz : Z) (w : World) (now1 now2 : Z) :
  mockHistory w <> [] ->
  localDay tz now2 = localDay tz now1 ->
  let r1 := fst (getStats tz w now1) in
  let w1 := snd (getStats tz w now1) in
  let r2 := fst (getStats tz w1 now2) in
  r2 = (if weekElapsed now2 r1 then weeklyReset now2 r1 else r1)
  /\ history r2 = history r1
  /\ currentStreak r2 = currentStreak r1
  /\ longestStreak r2 = longestStreak r1
  /\ todaySessions r2 = todaySessions r1
  /\ totalMinutesToday r2 = totalMinutesToday r1
  /\ lastUpdate r2 = lastUpdate r1
  /\ dailyGoal r2 = dailyGoal r1
  /\ (now2 - weekStartDate r1 < 7 * Calendar.msPerDay -> r2 = r1)
  /\ (now2 <= now1 -> r2 = r1).
Proof.
  intros Hm Hday r1 w1 r2.
  assert (Hr1 : r1 = rollover tz now1 (loaded tz w now1))
    by apply getStats_rollover.
  assert (Hne : history r1 <> []).
  { rewrite Hr1. by apply rollover_history_nonempty, loaded_history_nonempty. }
  assert (Hlu : localDay tz (lastUpdate r1) = localDay tz now1).
  { rewrite Hr1. apply rollover_lastUpdate. }
  assert (Hyoung : weekElapsed now1 r1 = false).
  { rewrite Hr1. apply rollover_week_young. }
  assert (Hst : STATS_KEY (localStorage w1) = Some (JSON_stringify_stats r1))
    by apply getStats_persisted.
  assert (Hr2 : r2 = rollover tz now2 r1).
  { unfold r2. rewrite getStats_rollover. f_equal.
    by apply loaded_stored. }
  assert (Hsame : dayChanged tz now2 r1 = false).
  { rewrite dayChanged_localDay, Hday, Hlu. by rewrite Z.eqb_refl. }
  assert (Hif : r2 = if weekElapsed now2 r1 then weeklyReset now2 r1 else r1).
  { rewrite Hr2. unfold rollover. by rewrite Hsame. }
  clearbody r1 r2 w1. clear Hr1 Hr2 Hst.
  split; [exact Hif|].
  destruct (weekElapsed now2 r1) eqn:Hw; subst r2.
  - cbn [weeklyReset history currentStreak longestStreak todaySessions
         totalMinutesToday lastUpdate dailyGoal].
    repeat (split; [reflexivity|]). split.
    + intros Hlt. apply weekElapsed_false in Hlt. congruence.
    + intros Hle. pose proof (weekElapsed_mono _ _ _ Hle Hyoung). congruence.
  - repeat (split; [reflexivity|]). split; reflexivity.
Qed.

(** A record with two sessions on 2024-01-01 and a streak of 3, in a module
    loaded on 2024-01-02: the call at 09:00Z archives the two sessions and
    raises the streak to 4, the call at 10:00Z changes nothing. *)
Lemma getStats_twice_witness :
  let p := mkStats 2 9 4 1704103200000 1703930400000 50 225 5 3
             (Some [("2023-12-31", 1)]) in
  let w := module_init 0 1704186000000 (mkStorage (Some (Json p)) None) in
  let r1 := fst (getStats 0 w 1704186000000) in
  let w1 := snd (getStats 0 w 1704186000000) in
  let r2 := fst (getStats 0 w1 1704189600000) in
  mockHistory w <> []
  /\ localDay 0 1704189600000 = localDay 0 1704186000000
  /\ history r1 = [("2023-12-31", 1); ("2024-01-01", 2)]
  /\ currentStreak r1 = 4
  /\ history r2 = history r1
  /\ currentStreak r2 = currentStreak r1
  /\ r2 = r1.
Proof.
  intros p w r1 w1 r2.
  assert (Hm : mockHistory w <> []) by apply module_init_mockHistory.
  assert (Hday : localDay 0 1704189600000 = localDay 0 1704186000000)
    by reflexivity.
  destruct (getStats_twice 0 w 1704186000000 1704189600000 Hm Hday)
    as (_ & H1 & H2 & _ & _ & _ & _ & _ & H3 & _).
  split; [exact Hm|]. split; [exact Hday|].
  split; [vm_compute; reflexivity|]. split; [vm_compute; reflexivity|].
  split; [exact H1|]. split; [exact H2|].
  apply H3. vm_compute. reflexivity.
Defined.

(** C3 as stated fails: a record whose week started on 2023-12-25T12:00Z,
    read at 11:00Z and again at 13:00Z on 2024-01-01.  Both calls fall on one
    local day; the week turns seven days old between them, and the second
    call resets the weekly counters. *)
Lemma getStats_twice_differs :
  let p := mkStats 2 9 4 1704103200000 1703505600000 50 225 5 3
             (Some [("2023-12-31", 1)]) in
  let w := mkWorld 0 [] (mkStorage (Some (Json p)) None) in
  let r1 := fst (getStats 0 w 1704106800000) in
  let w1 := snd (getStats 0 w 1704106800000) in
  let r2 := fst (getStats 0 w1 1704114000000) in
  localDay 0 1704114000000 = localDay 0 1704106800000
  /\ weekSessions r1 = 9 /\ weekSessions r2 = 0
  /\ r2 <> r1.
Proof.
  vm_compute. repeat split; try reflexivity.
  intros H. discriminate H.
Qed.

(** * Further properties of the code *)

(** ** The settings store *)

Section SettingsStore.

Lemma merge_settings_full (d s : AppSettings) :
  merge_settings d
    (mkParsedSettings (Some (darkMode s)) (Some (ambientSound s))
       (Some (ambientSoundType s)) (Some (ambientVolume s))
       (Some (focusDuration s)) (Some (breakDuration s))) = s.
Proof. by destruct s. Qed.

Lemma loadStats_saveSettings tz w s now :
  fst (loadStats tz (saveSettings w s) now) = fst (loadStats tz w now).
Proof.
  unfold loadStats. cbn [saveSettings localStorage STATS_KEY].
  destruct (STATS_KEY (localStorage w)) as [[| text | p]|];
    cbn [falsy JSON_parse]; try reflexivity.
  by destruct (history_missing p).
Qed.

End SettingsStore.

(** X1.  What [saveSettings] writes, [getSettings] reads back unchanged; and
    writing the settings does not change the stored statistics text or what
    [getStats] returns. *)
Theorem settings_round_trip (tz : Z) (w : World) (s : AppSettings) (now : Z) :
  getSettings (saveSettings w s) = Normal s
  /\ STATS_KEY (localStorage (saveSettings w s)) = STATS_KEY (localStorage w)
  /\ fst (getStats tz (saveSettings w s) now) = fst (getStats tz w now).
Proof.
  split; [|split].
  - unfold getSettings. cbn [saveSettings localStorage SETTINGS_KEY
      JSON_stringify_settings falsy JSON_parse].
    by rewrite merge_settings_full.
  - reflexivity.
  - rewrite !getStats_rollover. unfold loaded.
    by rewrite loadStats_saveSettings.
Qed.

(** X2.  [getSettings] throws exactly when a non-empty text that
    [JSON.parse] rejects is stored.  With nothing or the empty text stored it
    returns [DEFAULT_SETTINGS]; with an object stored it returns a full
    record in which each of the six keys is the stored one when it is there
    and the default otherwise (25 and 5 minutes, no dark mode, no ambient
    sound, rain, volume 1/2). *)
Theorem getSettings_outcomes (w : World) :
  (getSettings w = Throw SyntaxError
   <-> exists text, SETTINGS_KEY (localStorage w) = Some (Malformed text))
  /\ (SETTINGS_KEY (localStorage w) = None
      \/ SETTINGS_KEY (localStorage w) = Some EmptyText ->
      getSettings w = Normal DEFAULT_SETTINGS)
  /\ (forall p, SETTINGS_KEY (localStorage w) = Some (Json p) ->
      exists s, getSettings w = Normal s
        /\ focusDuration s = default 25 (p_focusDuration p)
        /\ breakDuration s = default 5 (p_breakDuration p)
        /\ darkMode s = default false (p_darkMode p)
        /\ ambientSound s = default false (p_ambientSound p)
        /\ ambientSoundType s = default rain (p_ambientSoundType p)
        /\ ambientVolume s = default (1 # 2)%Q (p_ambientVolume p)).
Proof.
  unfold getSettings.
  destruct (SETTINGS_KEY (localStorage w)) as [[| text | p]|];
    cbn [falsy JSON_parse].
  - split; [|split].
    + split; [discriminate | intros (t & H); discriminate].
    + done.
    + intros q H. discriminate.
  - split; [|split].
    + split; [eauto | done].
    + intros [H|H]; discriminate.
    + intros q H. discriminate.
  - split; [|split].
    + split; [discriminate | intros (t & H); discriminate].
    + intros [H|H]; discriminate.
    + intros q [= <-]. eexists. split; [reflexivity|]. by repeat split.
  - split; [|split].
    + split; [discriminate | intros (t & H); discriminate].
    + done.
    + intros q H. discriminate.
Qed.

Lemma getSettings_outcomes_witness :
  let p := mkParsedSettings None None None (Some (3 # 4)%Q) (Some 50) None in
  let w := mkWorld 0 [] (mkStorage None (Some (Json p))) in
  exists s, getSettings w = Normal s
    /\ focusDuration s = 50 /\ breakDuration s = 5
    /\ ambientVolume s = (3 # 4)%Q.
Proof.
  intros p w.
  destruct (getSettings_outcomes w) as (_ & _ & H).
  destruct (H p eq_refl) as (s & Hs & Hf & Hb & _ & _ & _ & Hv).
  exists s. split; [exact Hs|]. split; [exact Hf|]. split; [exact Hb | exact Hv].
Defined.

(** ** The statistics store *)

Section ObjectFacts.

Lemma obj_get_set_same (h : History) k v : obj_get (obj_set h k v) k = Some v.
Proof.
  induction h as [|[k' v'] h IH]; simpl.
  - by rewrite String.eqb_refl.
  - destruct (String.eqb k' k) eqn:E; simpl; by rewrite E.
Qed.

Lemma obj_get_set_other (h : History) k k' v :
  k' <> k -> obj_get (obj_set h k v) k' = obj_get h k'.
Proof.
  intros Hne. induction h as [|[k0 v0] h IH]; simpl.
  - apply String.eqb_neq in Hne. rewrite String.eqb_sym in Hne. by rewrite Hne.
  - destruct (String.eqb_spec k0 k) as [->|Hk]; simpl.
    + apply String.eqb_neq in Hne. rewrite String.eqb_sym in Hne.
      by rewrite Hne.
    + by rewrite IH.
Qed.

Lemma obj_get_None (h : History) k :
  obj_get h k = None <-> k ∉ Object_keys h.
Proof.
  induction h as [|[k' v'] h IH]; simpl.
  - split; [intros _; apply not_elem_of_nil | done].
  - rewrite not_elem_of_cons.
    destruct (String.eqb_spec k' k) as [->|Hk].
    + split; [discriminate | intros [H _]; done].
    + rewrite IH. split; [intros H; split; [congruence | done] | intros [_ H]; done].
Qed.

End ObjectFacts.

Section StatsStore.
Import Calendar CalendarFacts.

Variable tz : Z.

Lemma loadStats_saved w (s : UserStats) now :
  history s <> [] ->
  loadStats tz (saveStats w s) now = (s, false, saveStats w s).
Proof.
  intros Hne.
  assert (E : STATS_KEY (localStorage (saveStats w s))
              = Some (Json (with_history s (Some (history s)))))
    by reflexivity.
  assert (Hm : history_missing (with_history s (Some (history s))) = false).
  { unfold history_missing. cbn [with_history history].
    destruct (history s); [done | reflexivity]. }
  rewrite (loadStats_keep _ _ _ _ E Hm). by destruct s.
Qed.

Lemma loaded_keep w now p h :
  STATS_KEY (localStorage w) = Some (Json p) ->
  history p = Some h -> h <> [] ->
  loaded tz w now = with_history p h.
Proof.
  intros E Hh Hne. rewrite (loaded_Json _ _ _ _ E).
  unfold history_missing. rewrite Hh. by destruct h.
Qed.

Lemma getStats_frame w now :
  SETTINGS_KEY (localStorage (snd (getStats tz w now)))
  = SETTINGS_KEY (localStorage w)
  /\ loadTime (snd (getStats tz w now)) = loadTime w.
Proof.
  unfold getStats.
  assert (Hw1 : SETTINGS_KEY (localStorage (snd (loadStats tz w now)))
                = SETTINGS_KEY (localStorage w)
                /\ loadTime (snd (loadStats tz w now)) = loadTime w).
  { unfold loadStats. destruct (STATS_KEY (localStorage w)) as [[| text | p]|];
      cbn [falsy JSON_parse]; try done.
    by destruct (history_missing p). }
  destruct (loadStats tz w now) as [[s al] w1]. cbn [snd] in Hw1.
  destruct Hw1 as [H1 H2].
  set (d := dailyReset tz now s). clearbody d.
  destruct (dayChanged tz now s), al;
    match goal with |- context [weekElapsed ?n ?x] =>
      destruct (weekElapsed n x) end;
    cbn [snd saveStats share_history localStorage SETTINGS_KEY loadTime];
    done.
Qed.

End StatsStore.

Lemma stats_round_trip_fact (tz : Z) (w : World) (s : UserStats) (now : Z) :
  history s <> [] ->
  localDay tz now = localDay tz (lastUpdate s) ->
  now - weekStartDate s < 7 * Calendar.msPerDay ->
  getStats tz (saveStats w s) now = (s, saveStats w s).
Proof.
  intros Hne Hday Hweek. unfold getStats.
  rewrite (loadStats_saved tz w s now Hne).
  rewrite dayChanged_localDay, Hday, Z.eqb_refl. cbn [negb].
  apply weekElapsed_false in Hweek. by rewrite Hweek.
Qed.

(** X3.  A record with history entries that [saveStats] has written is read
    back unchanged by [getStats], and the storage is left as it is, when the
    call falls on the local day of the record's [lastUpdate] and less than
    seven days after its [weekStartDate]. *)
Theorem stats_round_trip (tz : Z) (w : World) (s : UserStats) (now : Z) :
  history s <> [] ->
  localDay tz now = localDay tz (lastUpdate s) ->
  now - weekStartDate s < 7 * Calendar.msPerDay ->
  getStats tz (saveStats w s) now = (s, saveStats w s).
Proof. apply stats_round_trip_fact. Qed.

Lemma stats_round_trip_witness :
  let s := mkStats 2 9 4 1704103200000 1703930400000 50 225 5 3
             [("2023-12-31", 1)] in
  let w := mkWorld 0 [] (mkStorage None None) in
  history s <> []
  /\ localDay 0 1704106800000 = localDay 0 (lastUpdate s)
  /\ fst (getStats 0 (saveStats w s) 1704106800000) = s.
Proof.
  intros s w.
  assert (Hne : history s <> []) by discriminate.
  assert (Hday : localDay 0 1704106800000 = localDay 0 (lastUpdate s))
    by reflexivity.
  assert (Hweek : 1704106800000 - weekStartDate s < 7 * Calendar.msPerDay)
    by (vm_compute; reflexivity).
  split; [exact Hne|]. split; [exact Hday|].
  exact (f_equal fst (stats_round_trip 0 w s 1704106800000 Hne Hday Hweek)).
Defined.

(** X4.  Whatever record [getStats] returns is the one the storage holds
    afterwards, and [getStats] never writes the settings text. *)
Theorem getStats_persists (tz : Z) (w : World) (now : Z) :
  STATS_KEY (localStorage (snd (getStats tz w now)))
  = Some (JSON_stringify_stats (fst (getStats tz w now)))
  /\ SETTINGS_KEY (localStorage (snd (getStats tz w now)))
     = SETTINGS_KEY (localStorage w)
  /\ getSettings (snd (getStats tz w now)) = getSettings w.
Proof.
  split; [apply getStats_persisted|].
  destruct (getStats_frame tz w now) as [H _].
  split; [exact H|]. unfold getSettings. by rewrite H.
Qed.

(** X5.  From the load of the module on, [getStats] never returns a record
    without history entries, so a record it has stored is never migrated by
    a later call. *)
Theorem getStats_history_nonempty (tz : Z) (w : World) (now now' : Z) :
  mockHistory w <> [] ->
  let r := fst (getStats tz w now) in
  let w1 := snd (getStats tz w now) in
  history r <> []
  /\ mockHistory w1 <> []
  /\ loadStats tz w1 now' = (r, false, w1).
Proof.
  intros Hm r w1.
  assert (Hne : history r <> []).
  { unfold r. rewrite getStats_rollover.
    by apply rollover_history_nonempty, loaded_history_nonempty. }
  split; [exact Hne|]. split; [by apply getStats_mockHistory|].
  assert (E : STATS_KEY (localStorage w1) = Some (JSON_stringify_stats r))
    by apply getStats_persisted.
  assert (Hmiss : history_missing (with_history r (Some (history r))) = false).
  { unfold history_missing. cbn [with_history history].
    destruct (history r); [done | reflexivity]. }
  rewrite (loadStats_keep _ _ _ _ E Hmiss).
  clearbody r w1. by destruct r.
Qed.

Lemma getStats_history_nonempty_witness :
  let w := module_init 0 1704103200000 (mkStorage None None) in
  mockHistory w <> []
  /\ history (fst (getStats 0 w 1704103200000)) <> [].
Proof.
  intros w.
  assert (Hm : mockHistory w <> []) by apply module_init_mockHistory.
  destruct (getStats_history_nonempty 0 w 1704103200000 1704103200000 Hm)
    as (H & _).
  split; [exact Hm | exact H].
Defined.

Section DailyReset.
Import Calendar CalendarFacts.

Variable tz : Z.

Lemma rollover_new_day now (s : UserStats) :
  dayChanged tz now s = true ->
  let r := rollover tz now s in
  todaySessions r = 0 /\ totalMinutesToday r = 0 /\ lastUpdate r = now
  /\ dailyGoal r = dailyGoal s
  /\ history r
     = obj_set (history s) (getDateKey tz (lastUpdate s)) (todaySessions s).
Proof.
  intros E. unfold rollover. rewrite E.
  by destruct (weekElapsed now (dailyReset tz now s)).
Qed.

Lemma rollover_old_day now (s : UserStats) :
  dayChanged tz now s = false ->
  let r := rollover tz now s in
  todaySessions r = todaySessions s
  /\ totalMinutesToday r = totalMinutesToday s
  /\ lastUpdate r = lastUpdate s /\ dailyGoal r = dailyGoal s
  /\ history r = history s
  /\ currentStreak r = currentStreak s /\ longestStreak r = longestStreak s.
Proof.
  intros E. unfold rollover. rewrite E.
  by destruct (weekElapsed now s).
Qed.

Lemma dailyReset_longestStreak now (s : UserStats) :
  longestStreak (dailyReset tz now s)
  = Z.max (longestStreak s) (currentStreak (dailyReset tz now s)).
Proof.
  unfold dailyReset. simpl.
  repeat match goal with
         | |- context [if ?b then _ else _] => destruct b eqn:?
         end; lia.
Qed.

Lemma rollover_longestStreak_eq now (s : UserStats) :
  longestStreak (rollover tz now s)
  = if dayChanged tz now s
    then Z.max (longestStreak s) (currentStreak (rollover tz now s))
    else longestStreak s.
Proof.
  rewrite rollover_currentStreak. unfold rollover.
  pose proof (dailyReset_longestStreak now s) as Hd.
  set (d := dailyReset tz now s) in *. clearbody d.
  destruct (dayChanged tz now s);
    match goal with |- context [weekElapsed ?n ?x] =>
      destruct (weekElapsed n x) end; cbn [weeklyReset longestStreak]; done.
Qed.

Lemma dayChanged_keys now (s : UserStats) :
  dayChanged tz now s = true -> getDateKey tz now <> getDateKey tz (lastUpdate s).
Proof.
  unfold dayChanged. intros E. apply negb_true_iff in E.
  by apply String.eqb_neq.
Qed.

Lemma obj_get_unique (h : History) k v :
  NoDup (Object_keys h) -> (k, v) ∈ h -> obj_get h k = Some v.
Proof.
  induction h as [|[k' v'] h IH]; intros Hnd Hin.
  - by apply elem_of_nil in Hin.
  - cbn [Object_keys map fst] in Hnd. apply NoDup_cons in Hnd as [Hk Hnd].
    apply elem_of_cons in Hin as [[= -> ->]|Hin]; simpl.
    + by rewrite String.eqb_refl.
    + destruct (String.eqb_spec k' k) as [->|_]; [|by apply IH].
      exfalso. apply Hk. unfold Object_keys.
      apply list_elem_of_fmap. by exists (k, v).
Qed.

Lemma generateMockHistory_no_today today :
  obj_get (generateMockHistory tz today) (getDateKey tz today) = None.
Proof.
  apply obj_get_None. rewrite generateMockHistory_keys.
  intros Hin. apply list_elem_of_fmap in Hin as (i & Hk & Hi).
  assert (E : key_back tz today 0 = key_back tz today i).
  { rewrite <- Hk. unfold key_back. f_equal. lia. }
  apply key_back_inj in E. subst i.
  apply elem_of_seq in Hi. lia.
Qed.

End DailyReset.

(** X6.  For every stored record with history entries and every call of
    [getStats] on another local day than that of its [lastUpdate]: the record
    returned has no sessions and no minutes for today and is dated now, the
    daily goal is kept, the history holds the stored [todaySessions] under
    the key of the day of [lastUpdate], and every other key reads as
    before. *)
Theorem daily_reset_archives (tz : Z) (w : World) (now : Z)
    (p : ParsedStats) (h : History) :
  STATS_KEY (localStorage w) = Some (Json p) ->
  history p = Some h -> h <> [] ->
  localDay tz now <> localDay tz (lastUpdate p) ->
  let r := fst (getStats tz w now) in
  todaySessions r = 0 /\ totalMinutesToday r = 0 /\ lastUpdate r = now
  /\ dailyGoal r = dailyGoal p
  /\ obj_get (history r) (getDateKey tz (lastUpdate p)) = Some (todaySessions p)
  /\ forall k, k <> getDateKey tz (lastUpdate p) ->
               obj_get (history r) k = obj_get h k.
Proof.
  intros E Hh Hne Hday r. unfold r. rewrite getStats_rollover.
  rewrite (loaded_keep tz w now p h E Hh Hne).
  assert (Hd : dayChanged tz now (with_history p h) = true).
  { rewrite dayChanged_localDay. cbn [with_history lastUpdate].
    apply Z.eqb_neq in Hday. by rewrite Hday. }
  destruct (rollover_new_day tz now _ Hd) as (H1 & H2 & H3 & H4 & H5).
  cbn [with_history lastUpdate todaySessions dailyGoal history] in H4, H5.
  rewrite H5. repeat split; try done.
  - apply obj_get_set_same.
  - intros k Hk. by apply obj_get_set_other.
Qed.

(** Two sessions on 2024-01-01, read on 2024-01-02: the count goes under
    "2024-01-01". *)
Lemma daily_reset_archives_witness :
  let p := mkStats 2 9 4 1704103200000 1703930400000 50 225 5 3
             (Some [("2023-12-31", 1)]) in
  let w := mkWorld 0 [] (mkStorage (Some (Json p)) None) in
  let r := fst (getStats 0 w 1704186000000) in
  localDay 0 1704186000000 <> localDay 0 (lastUpdate p)
  /\ todaySessions r = 0
  /\ obj_get (history r) (getDateKey 0 1704103200000) = Some 2.
Proof.
  intros p w r.
  assert (Hne : [("2023-12-31", 1)] <> ([] : History)) by discriminate.
  assert (Hday : localDay 0 1704186000000 <> localDay 0 (lastUpdate p))
    by (vm_compute; discriminate).
  destruct (daily_reset_archives 0 w 1704186000000 p _ eq_refl eq_refl Hne Hday)
    as (H1 & _ & _ & _ & H2 & _).
  split; [exact Hday|]. split; [exact H1 | exact H2].
Defined.

(** X7.  For every stored record with history entries and every call of
    [getStats] on the local day of its [lastUpdate]: today's sessions and
    minutes, [lastUpdate], the daily goal, the history and both streaks come
    back as stored. *)
Theorem same_day_load_keeps (tz : Z) (w : World) (now : Z)
    (p : ParsedStats) (h : History) :
  STATS_KEY (localStorage w) = Some (Json p) ->
  history p = Some h -> h <> [] ->
  localDay tz now = localDay tz (lastUpdate p) ->
  let r := fst (getStats tz w now) in
  todaySessions r = todaySessions p
  /\ totalMinutesToday r = totalMinutesToday p
  /\ lastUpdate r = lastUpdate p /\ dailyGoal r = dailyGoal p
  /\ history r = h
  /\ currentStreak r = currentStreak p /\ longestStreak r = longestStreak p.
Proof.
  intros E Hh Hne Hday r. unfold r. rewrite getStats_rollover.
  rewrite (loaded_keep tz w now p h E Hh Hne).
  assert (Hd : dayChanged tz now (with_history p h) = false).
  { rewrite dayChanged_localDay. cbn [with_history lastUpdate].
    by rewrite Hday, Z.eqb_refl. }
  exact (rollover_old_day tz now _ Hd).
Qed.

Lemma same_day_load_keeps_witness :
  let p := mkStats 2 9 4 1704103200000 1703930400000 50 225 5 3
             (Some [("2023-12-31", 1)]) in
  let w := mkWorld 0 [] (mkStorage (Some (Json p)) None) in
  let r := fst (getStats 0 w 1704106800000) in
  localDay 0 1704106800000 = localDay 0 (lastUpdate p)
  /\ todaySessions r = 2 /\ history r = [("2023-12-31", 1)].
Proof.
  intros p w r.
  assert (Hne : [("2023-12-31", 1)] <> ([] : History)) by discriminate.
  assert (Hday : localDay 0 1704106800000 = localDay 0 (lastUpdate p))
    by reflexivity.
  destruct (same_day_load_keeps 0 w 1704106800000 p _ eq_refl eq_refl Hne Hday)
    as (H1 & _ & _ & _ & H2 & _).
  split; [exact Hday|]. split; [exact H1 | exact H2].
Defined.

(** X8.  If the stored history has no entry under today's key (or the record
    has no history at all), the history [getStats] returns has none either:
    the migration fills in the ten days before today, and the daily reset
    writes under the key of an earlier day. *)
Theorem no_entry_for_today (tz : Z) (w : World) (now : Z) (p : ParsedStats) :
  STATS_KEY (localStorage w) = Some (Json p) ->
  (forall h, history p = Some h -> obj_get h (getDateKey tz now) = None) ->
  obj_get (history (fst (getStats tz w now))) (getDateKey tz now) = None.
Proof.
  intros E Hp. rewrite getStats_rollover.
  assert (H0 : obj_get (history (loaded tz w now)) (getDateKey tz now) = None).
  { rewrite (loaded_Json _ _ _ _ E). destruct (history_missing p) eqn:Hm.
    - apply generateMockHistory_no_today.
    - destruct (history_missing_false _ Hm) as (h & Hh & _).
      cbn [with_history history]. rewrite Hh. by apply Hp. }
  set (s := loaded tz w now) in *. clearbody s.
  destruct (dayChanged tz now s) eqn:Hd.
  - destruct (rollover_new_day tz now s Hd) as (_ & _ & _ & _ & ->).
    rewrite obj_get_set_other; [done|]. by apply dayChanged_keys.
  - destruct (rollover_old_day tz now s Hd) as (_ & _ & _ & _ & -> & _).
    done.
Qed.

Lemma no_entry_for_today_witness :
  let p := mkStats 2 9 4 1704103200000 1703930400000 50 225 5 3
             (Some [("2023-12-31", 1)]) in
  let w := mkWorld 0 [] (mkStorage (Some (Json p)) None) in
  obj_get (history (fst (getStats 0 w 1704186000000)))
    (getDateKey 0 1704186000000) = None.
Proof.
  intros p w.
  apply (no_entry_for_today 0 w 1704186000000 p eq_refl).
  intros h [= <-]. vm_compute. reflexivity.
Defined.

(** X9.  For every stored record with history entries and streaks
    [0 <= currentStreak <= longestStreak], one call of [getStats] leaves a
    current streak between 0 and the stored one plus 1, and a longest streak
    that is the larger of the stored longest streak and the new current
    streak, so it never goes down. *)
Theorem streak_bounds (tz : Z) (w : World) (now : Z)
    (p : ParsedStats) (h : History) :
  STATS_KEY (localStorage w) = Some (Json p) ->
  history p = Some h -> h <> [] ->
  0 <= currentStreak p <= longestStreak p ->
  let r := fst (getStats tz w now) in
  0 <= currentStreak r <= currentStreak p + 1
  /\ longestStreak r = Z.max (longestStreak p) (currentStreak r)
  /\ longestStreak p <= longestStreak r.
Proof.
  intros E Hh Hne Hs r. unfold r. rewrite getStats_rollover.
  rewrite (loaded_keep tz w now p h E Hh Hne).
  set (s := with_history p h).
  assert (Hcs : currentStreak s = currentStreak p) by reflexivity.
  assert (Hls : longestStreak s = longestStreak p) by reflexivity.
  pose proof (rollover_currentStreak tz now s) as Hc.
  pose proof (rollover_longestStreak_eq tz now s) as Hl.
  rewrite dailyReset_currentStreak in Hc.
  rewrite Hl, Hc, Hcs, Hls. clear Hl Hc.
  destruct (dayChanged tz now s);
    repeat match goal with
           | |- context [if ?b then _ else _] => destruct b
           end; lia.
Qed.

Lemma streak_bounds_witness :
  let p := mkStats 2 9 4 1704103200000 1703930400000 50 225 3 3
             (Some [("2023-12-31", 1)]) in
  let w := mkWorld 0 [] (mkStorage (Some (Json p)) None) in
  let r := fst (getStats 0 w 1704186000000) in
  0 <= currentStreak p <= longestStreak p
  /\ longestStreak r = Z.max (longestStreak p) (currentStreak r)
  /\ longestStreak p <= longestStreak r.
Proof.
  intros p w r.
  assert (Hne : [("2023-12-31", 1)] <> ([] : History)) by discriminate.
  assert (Hs : 0 <= currentStreak p <= longestStreak p) by (simpl; lia).
  destruct (streak_bounds 0 w 1704186000000 p _ eq_refl eq_refl Hne Hs)
    as (_ & H1 & H2).
  split; [exact Hs|]. split; [exact H1 | exact H2].
Defined.

(** X10.  Whatever the date and the zone, [generateMockHistory] returns ten
    entries, most recent first, keyed by the ten local days before today
    also across the start of a month or of a year, with the counts 5, 2, 6,
    3, 4, 1, 7, 3, 2, 5.  The keys are pairwise distinct, each reads its own
    count, there is no entry for today, and the first six counts sum to
    21. *)
Theorem generateMockHistory_shape (tz today : Z) :
  let h := generateMockHistory tz today in
  Object_keys h
  = map (fun i => getDateKey tz (today - Z.of_nat i * Calendar.msPerDay))
      (seq 1 10)
  /\ Object_values h = [5; 2; 6; 3; 4; 1; 7; 3; 2; 5]
  /\ NoDup (Object_keys h)
  /\ (forall i, (1 <= i <= 10)%nat ->
        obj_get h (getDateKey tz (today - Z.of_nat i * Calendar.msPerDay))
        = mockCounts !! (i - 1)%nat)
  /\ obj_get h (getDateKey tz today) = None
  /\ sessionsPast6Days h = 21.
Proof.
  intros h. unfold h.
  split; [apply generateMockHistory_keys|].
  split; [apply generateMockHistory_values|].
  split; [apply generateMockHistory_NoDup|].
  split; [|split; [apply generateMockHistory_no_today|]].
  - intros i Hi.
    assert (Hv : mockCounts !! (i - 1)%nat = Some (mockCount_or_2 (i - 1))).
    { do 11 (destruct i as [|i]; [try lia; reflexivity|]). lia. }
    rewrite Hv. apply obj_get_unique; [apply generateMockHistory_NoDup|].
    rewrite generateMockHistory_eq.
    apply list_elem_of_fmap. exists i. split; [reflexivity|].
    apply elem_of_seq. lia.
  - unfold sessionsPast6Days. by rewrite generateMockHistory_values.
Qed.

Lemma generateMockHistory_shape_witness :
  obj_get (generateMockHistory 0 1704103200000)
    (getDateKey 0 (1704103200000 - Z.of_nat 1 * Calendar.msPerDay))
  = Some 5.
Proof.
  destruct (generateMockHistory_shape 0 1704103200000)
    as (_ & _ & _ & H & _).
  apply (H 1%nat). split; [apply le_n | apply Nat.lt_0_succ].
Defined.

(** ** The texts of the timer and of the dashboard *)

Section Formatting.
Import StringFacts.

Lemma pad2_digits0 n :
  0 <= n < 100 ->
  pad2 n = String (pretty_N_char (Z.to_N n `div` 10))
             (String (pretty_N_char (Z.to_N n `mod` 10)) "").
Proof.
  intros Hn. destruct (decide (n = 0)) as [->|Hne]; [reflexivity|].
  apply pad2_digits. lia.
Qed.

(** A number below 100 is given by its two digits. *)
Lemma two_digits_inj (a b : Z) :
  0 <= a < 100 -> 0 <= b < 100 ->
  (Z.to_N a `div` 10 = Z.to_N b `div` 10)%N ->
  (Z.to_N a `mod` 10 = Z.to_N b `mod` 10)%N ->
  a = b.
Proof.
  intros Ha Hb Hd Hm.
  assert (E : Z.to_N a = Z.to_N b).
  { rewrite (N.div_mod (Z.to_N a) 10), (N.div_mod (Z.to_N b) 10) by done.
    by rewrite Hd, Hm. }
  lia.
Qed.

Lemma all_digits_pretty_N_go (x : N) :
  forall s, all_digits s = true -> all_digits (pretty_N_go x s) = true.
Proof.
  induction (N.lt_wf_0 x) as [x _ IH]. intros s Hs.
  destruct (decide (x = 0)%N) as [->|Hx]; [by rewrite pretty_N_go_0|].
  rewrite pretty_N_go_step by nlia.
  apply IH; [apply N.div_lt; nlia|].
  simpl. by rewrite pretty_N_char_digit.
Qed.

Lemma all_digits_String_of (n : Z) : 0 <= n -> all_digits (String_of n) = true.
Proof.
  intros Hn. destruct n as [|q|q]; [reflexivity| |lia].
  unfold String_of. change (pretty (Z.pos q)) with (pretty (N.pos q)).
  unfold pretty, pretty_N. case_decide; [done|].
  by apply all_digits_pretty_N_go.
Qed.

(** A run of digits followed by another character can be read off a text in
    one way only. *)
Lemma digits_prefix_unique (a1 a2 : string) c1 c2 (r1 r2 : string) :
  all_digits a1 = true -> all_digits a2 = true ->
  is_digit c1 = false -> is_digit c2 = false ->
  a1 +:+ String c1 r1 = a2 +:+ String c2 r2 ->
  a1 = a2 /\ c1 = c2 /\ r1 = r2.
Proof.
  revert a2. induction a1 as [|d1 a1 IH]; intros [|d2 a2] H1 H2 Hc1 Hc2 E;
    rewrite ?append_nil, ?append_cons in E; simpl in H1, H2.
  - by injection E as -> ->.
  - injection E as -> _. apply andb_prop in H2 as [H2 _]. congruence.
  - injection E as -> _. apply andb_prop in H1 as [H1 _]. congruence.
  - injection E as -> E.
    apply andb_prop in H1 as [_ H1]. apply andb_prop in H2 as [_ H2].
    destruct (IH a2 H1 H2 Hc1 Hc2 E) as (-> & -> & ->). done.
Qed.

Lemma formatMinutes_short m :
  0 <= m < 60 -> formatMinutes m = String_of m +:+ "m".
Proof.
  intros Hm. unfold formatMinutes.
  rewrite (Z.div_small m 60), (Z.rem_small m 60) by lia. reflexivity.
Qed.

Lemma formatMinutes_long m :
  60 <= m ->
  formatMinutes m
  = String_of (m `div` 60) +:+ "h " +:+ String_of (m `mod` 60) +:+ "m".
Proof.
  intros Hm. unfold formatMinutes.
  assert (Hh : (0 <? m `div` 60) = true) by (apply Z.ltb_lt; CalendarFacts.dlia).
  rewrite Hh, Z.rem_mod_nonneg by lia. reflexivity.
Qed.

End Formatting.

(** X11.  For a time left of less than 100 minutes, [formatTime] gives a
    text of the shape MM:SS, the minutes and the seconds below 60 each on two
    digits, and two different times left give two different texts. *)
Theorem formatTime_shape (seconds seconds' : Z) :
  0 <= seconds < 6000 -> 0 <= seconds' < 6000 ->
  formatTime seconds
  = pad2 (seconds `div` 60) +:+ ":" +:+ pad2 (seconds `mod` 60)
  /\ 0 <= seconds `mod` 60 < 60
  /\ is_MM_SS (formatTime seconds) = true
  /\ (formatTime seconds = formatTime seconds' -> seconds = seconds').
Proof.
  intros Hs Hs'.
  assert (Hf : forall x, 0 <= x < 6000 ->
    formatTime x
    = String (pretty_N_char (Z.to_N (x `div` 60) `div` 10))
        (String (pretty_N_char (Z.to_N (x `div` 60) `mod` 10))
        (String colon
        (String (pretty_N_char (Z.to_N (x `mod` 60) `div` 10))
        (String (pretty_N_char (Z.to_N (x `mod` 60) `mod` 10)) ""))))).
  { intros x Hx. unfold formatTime. rewrite Z.rem_mod_nonneg by lia.
    rewrite (pad2_digits0 (x `div` 60)) by CalendarFacts.dlia.
    rewrite (pad2_digits0 (x `mod` 60)) by CalendarFacts.dlia.
    reflexivity. }
  split; [|split; [|split]].
  - unfold formatTime. by rewrite Z.rem_mod_nonneg by lia.
  - CalendarFacts.dlia.
  - rewrite (Hf _ Hs). unfold is_MM_SS.
    by rewrite !StringFacts.pretty_N_char_digit.
  - rewrite (Hf _ Hs), (Hf _ Hs'). intros [= E1 E2 E3 E4].
    assert (Hb : forall x, 0 <= x < 6000 ->
              0 <= x `div` 60 < 100 /\ 0 <= x `mod` 60 < 100)
      by (intros; CalendarFacts.dlia).
    destruct (Hb _ Hs) as [B1 B2]. destruct (Hb _ Hs') as [B1' B2'].
    assert (Hm : seconds `div` 60 = seconds' `div` 60).
    { revert B1 B1' E1 E2. generalize (seconds `div` 60) (seconds' `div` 60).
      intros a b Ha Hb' E1 E2. apply two_digits_inj; try done;
        (apply pretty_N_char_inj; [StringFacts.nlia .. | done]). }
    assert (Hr : seconds `mod` 60 = seconds' `mod` 60).
    { revert B2 B2' E3 E4. generalize (seconds `mod` 60) (seconds' `mod` 60).
      intros a b Ha Hb' E3 E4. apply two_digits_inj; try done;
        (apply pretty_N_char_inj; [StringFacts.nlia .. | done]). }
    rewrite (Z.div_mod seconds 60), (Z.div_mod seconds' 60) by lia.
    by rewrite Hm, Hr.
Qed.

Lemma formatTime_shape_witness :
  0 <= 1500 < 6000 /\ formatTime 1500 = "25:00"
  /\ is_MM_SS (formatTime 1500) = true.
Proof.
  assert (H : 0 <= 1500 < 6000) by lia.
  destruct (formatTime_shape 1500 1500 H H) as (_ & _ & H1 & _).
  split; [exact H|]. split; [reflexivity | exact H1].
Defined.

(** X12.  For a number of minutes that is not negative, [formatMinutes]
    gives the minutes and "m" below one hour, and from one hour on the whole
    hours, "h", a space, the remaining minutes (below 60) and "m"; two
    different numbers of minutes give two different texts. *)
Theorem formatMinutes_shape (m m' : Z) :
  0 <= m -> 0 <= m' ->
  (m < 60 -> formatMinutes m = String_of m +:+ "m")
  /\ (60 <= m ->
      formatMinutes m
      = String_of (m `div` 60) +:+ "h " +:+ String_of (m `mod` 60) +:+ "m"
      /\ 0 <= m `mod` 60 < 60
      /\ (m `div` 60) * 60 + m `mod` 60 = m)
  /\ (formatMinutes m = formatMinutes m' -> m = m').
Proof.
  intros Hm Hm'. split; [|split].
  - intros H. apply formatMinutes_short. lia.
  - intros H. split; [by apply formatMinutes_long|]. CalendarFacts.dlia.
  - destruct (Z.lt_ge_cases m 60) as [H1|H1], (Z.lt_ge_cases m' 60) as [H2|H2];
      rewrite ?(formatMinutes_short m), ?(formatMinutes_short m'),
        ?(formatMinutes_long m), ?(formatMinutes_long m') by lia;
      intros E.
    + apply digits_prefix_unique in E as (E & _);
        try done; try (apply all_digits_String_of; lia).
      by apply (inj pretty) in E.
    + apply digits_prefix_unique in E as (_ & E & _);
        try done; try (apply all_digits_String_of; CalendarFacts.dlia).
    + apply digits_prefix_unique in E as (_ & E & _);
        try done; try (apply all_digits_String_of; CalendarFacts.dlia).
    + apply digits_prefix_unique in E as (Eh & _ & E);
        try done; try (apply all_digits_String_of; CalendarFacts.dlia).
      rewrite ?StringFacts.append_cons, ?StringFacts.append_nil in E.
      injection E as E.
      apply digits_prefix_unique in E as (Em & _);
        try done; try (apply all_digits_String_of; CalendarFacts.dlia).
      apply (inj pretty) in Eh. apply (inj pretty) in Em.
      CalendarFacts.dlia.
Qed.

Lemma formatMinutes_shape_witness :
  0 <= 125 /\ formatMinutes 125 = "2h 5m" /\ formatMinutes 59 = "59m".
Proof.
  assert (H : 0 <= 125) by lia.
  assert (H' : 0 <= 59) by lia.
  destruct (formatMinutes_shape 125 59 H H') as (_ & Hl & _).
  destruct (formatMinutes_shape 59 125 H' H) as (Hs & _).
  split; [exact H|]. split.
  - exact (proj1 (Hl ltac:(lia))).
  - exact (Hs ltac:(lia)).
Defined.

(** ** The chart of the last seven days *)

Section Chart.
Import Calendar CalendarFacts.

Variable tz : Z.

Lemma WeekDay_back t (k : Z) :
  WeekDay (LocalTime tz (t - k * msPerDay))
  = (WeekDay (LocalTime tz t) - k) `mod` 7.
Proof.
  unfold WeekDay.
  change (Day (LocalTime tz (t - k * msPerDay)))
    with (localDay tz (t - k * msPerDay)).
  rewrite localDay_shift. unfold localDay.
  set (d := Day (LocalTime tz t)). clearbody d. dlia.
Qed.

(** The entry of index [i]: the day [6 - i] days before today. *)
Lemma chartEntry_eq today (stats : UserStats) (i : nat) :
  (i <= 6)%nat ->
  chartEntry tz today stats i
  = {| day := weekday_short
                ((WeekDay (LocalTime tz today) + Z.of_nat i + 1) `mod` 7);
       count := if (i =? 6)%nat then todaySessions stats
                else obj_get_or_0 (history stats) (key_back tz today (6 - i));
       isToday := (i =? 6)%nat |}.
Proof.
  intros Hi. unfold chartEntry.
  rewrite setDate_back.
  assert (Hk : getDateKey tz (today - (6 - Z.of_nat i) * msPerDay)
               = key_back tz today (6 - i)).
  { unfold key_back. f_equal. unfold msPerDay. lia. }
  assert (He : String.eqb (getDateKey tz (today - (6 - Z.of_nat i) * msPerDay))
                 (getDateKey tz today) = (i =? 6)%nat).
  { rewrite getDateKey_eqb, localDay_shift.
    destruct (Nat.eqb_spec i 6) as [->|Hn]; [apply Z.eqb_eq | apply Z.eqb_neq];
      lia. }
  rewrite He, Hk. f_equal.
  unfold toLocaleWeekday. rewrite WeekDay_back. f_equal.
  set (wd := WeekDay (LocalTime tz today)). clearbody wd. dlia.
Qed.

Lemma chartData_entries today (stats : UserStats) :
  (forall i, (i <= 6)%nat ->
     chartData tz today stats !! i
     = Some {| day := weekday_short
                        ((WeekDay (LocalTime tz today) + Z.of_nat i + 1) `mod` 7);
               count := if (i =? 6)%nat then todaySessions stats
                        else obj_get_or_0 (history stats)
                               (key_back tz today (6 - i));
               isToday := (i =? 6)%nat |})
  /\ chartData tz today stats !! 6%nat
     = Some {| day := toLocaleWeekday tz today;
               count := todaySessions stats; isToday := true |}.
Proof.
  assert (Hi : forall i, (i <= 6)%nat ->
    chartData tz today stats !! i = Some (chartEntry tz today stats i)).
  { intros i Hi. unfold chartData.
    rewrite list_lookup_fmap, lookup_seq_lt by lia. reflexivity. }
  split.
  - intros i Hle. by rewrite (Hi i Hle), chartEntry_eq.
  - rewrite (Hi 6%nat) by lia. rewrite chartEntry_eq by lia.
    cbn [Nat.eqb]. do 2 f_equal. unfold toLocaleWeekday. f_equal.
    unfold WeekDay. dlia.
Qed.

End Chart.

(** X13.  [chartData] has seven entries, for the six local days before today
    and today, in this order, also across the start of a month or of a year.
    Only the last entry is marked as today, and it shows [todaySessions],
    whatever the history holds; an earlier entry shows what the history
    holds under the key of its day, and 0 when there is no such key.  The
    day names follow each other and end on the name of today. *)
Theorem chartData_shape (tz today : Z) (stats : UserStats) :
  length (chartData tz today stats) = 7%nat
  /\ (forall i, (i <= 6)%nat ->
      chartData tz today stats !! i
      = Some {| day := weekday_short
                         ((WeekDay (LocalTime tz today) + Z.of_nat i + 1) `mod` 7);
                count := if (i =? 6)%nat then todaySessions stats
                         else obj_get_or_0 (history stats)
                                (getDateKey tz (today - Z.of_nat (6 - i)
                                                        * Calendar.msPerDay));
                isToday := (i =? 6)%nat |})
  /\ chartData tz today stats !! 6%nat
     = Some {| day := toLocaleWeekday tz today;
               count := todaySessions stats; isToday := true |}.
Proof.
  destruct (chartData_entries tz today stats) as [Hi Hlast].
  split; [|split].
  - unfold chartData. by rewrite length_map, length_seq.
  - intros i Hle. by rewrite (Hi i Hle).
  - exact Hlast.
Qed.

Lemma chartData_shape_witness :
  let s := mkStats 2 9 4 1704103200000 1703930400000 50 225 5 3
             [("2023-12-31", 1); ("2024-01-01", 7)] in
  chartData 0 1704103200000 s !! 6%nat
  = Some {| day := "Mon"; count := 2; isToday := true |}.
Proof.
  intros s.
  destruct (chartData_shape 0 1704103200000 s) as (_ & _ & H).
  exact H.
Defined.

(** X14.  The chart after a rollover.  A stored record with history entries
    is read by [getStats] one to six local days after the day of its
    [lastUpdate]: in the chart drawn from the record returned, the entry of
    the day of [lastUpdate] shows the sessions stored for that day, and the
    entry of today shows 0. *)
Theorem chart_after_rollover (tz : Z) (w : World) (now : Z)
    (p : ParsedStats) (h : History) (k : nat) :
  STATS_KEY (localStorage w) = Some (Json p) ->
  history p = Some h -> h <> [] ->
  (1 <= k <= 6)%nat ->
  localDay tz now = localDay tz (lastUpdate p) + Z.of_nat k ->
  let r := fst (getStats tz w now) in
  (count <$> chartData tz now r !! (6 - k)%nat) = Some (todaySessions p)
  /\ (count <$> chartData tz now r !! 6%nat) = Some 0.
Proof.
  intros E Hh Hne Hk Hday r.
  assert (Hr : r = rollover tz now (with_history p h)).
  { unfold r. by rewrite getStats_rollover, (loaded_keep tz w now p h E Hh Hne). }
  assert (Hd : dayChanged tz now (with_history p h) = true).
  { rewrite dayChanged_localDay. cbn [with_history lastUpdate].
    assert (Hn : (localDay tz now =? localDay tz (lastUpdate p)) = false)
      by (apply Z.eqb_neq; lia).
    by rewrite Hn. }
  destruct (rollover_new_day tz now _ Hd) as (H0 & _ & _ & _ & Hhist).
  rewrite <- Hr in H0, Hhist. clearbody r.
  cbn [with_history lastUpdate todaySessions history] in Hhist.
  destruct (chartData_entries tz now r) as [Hlook Hlast].
  split.
  - rewrite (Hlook (6 - k)%nat) by lia. cbn [fmap option_fmap option_map count].
    assert (Hnk : ((6 - k) =? 6)%nat = false) by (apply Nat.eqb_neq; lia).
    rewrite Hnk. f_equal.
    assert (Hkey : key_back tz now (6 - (6 - k)) = getDateKey tz (lastUpdate p)).
    { unfold key_back. apply getDateKey_same_day.
      rewrite localDay_shift. lia. }
    rewrite Hkey. unfold obj_get_or_0.
    rewrite Hhist, obj_get_set_same.
    by destruct (Z.eqb_spec (todaySessions p) 0) as [->|_].
  - rewrite Hlast. cbn [fmap option_fmap option_map count]. by rewrite H0.
Qed.

Lemma chart_after_rollover_witness :
  let p := mkStats 2 9 4 1704103200000 1703930400000 50 225 5 3
             (Some [("2023-12-31", 1)]) in
  let w := mkWorld 0 [] (mkStorage (Some (Json p)) None) in
  let r := fst (getStats 0 w 1704186000000) in
  localDay 0 1704186000000 = localDay 0 (lastUpdate p) + Z.of_nat 1
  /\ (count <$> chartData 0 1704186000000 r !! 5%nat) = Some 2.
Proof.
  intros p w r.
  assert (Hne : [("2023-12-31", 1)] <> ([] : History)) by discriminate.
  assert (Hk : (1 <= 1 <= 6)%nat) by lia.
  assert (Hday : localDay 0 1704186000000
                 = localDay 0 (lastUpdate p) + Z.of_nat 1) by reflexivity.
  destruct (chart_after_rollover 0 w 1704186000000 p _ 1
              eq_refl eq_refl Hne Hk Hday) as (H & _).
  split; [exact Hday | exact H].
Defined.

(** ** The timer *)

Section Timer.









End Timer.

Section Renders.

Variable tz : Z.






End Renders.

Section TimerRuns.

Lemma duration_of_ok s m : durations_ok s -> 1 <= duration_of s m * 60.
Proof. intros [Hf Hb]. destruct m; simpl; lia. Qed.

Lemma timerStep_kept a0 a w e :
  event_ok e -> kept_from a0 a -> kept_from a0 (fst (timerStep (a, w) e)).
Proof.
  intros He (Hd & Ht & Hg & Hh & Hc & Hl & Hw & Hs & Hm).
  pose proof (duration_of_ok (settings a) focus Hd) as Hdf.
  pose proof (duration_of_ok (settings a) break Hd) as Hdb.
  pose proof (fun m => duration_of_ok (settings a) m Hd) as Hdur.
  destruct Hd as [Hf Hb].
  destruct e as [now| |f|m|s| |]; unfold kept_from, durations_ok;
    cbn [timerStep fst snd].
  - unfold tick. destruct (isActive a); [|done].
    destruct (Z.leb_spec (timeLeft a) 1).
    + unfold completeSession.
      destruct (mode a); cbn; repeat split; try done; lia.
    + cbn. repeat split; try done; lia.
  - done.
  - unfold resetTimer. destruct f; cbn; repeat split; try done; apply Hdur.
  - cbn. repeat split; try done; apply Hdur.
  - cbn in He. pose proof (fun m => duration_of_ok s m He) as Hdur'.
    destruct He as [Hf' Hb']. unfold applySettings.
    match goal with |- context [if ?b then _ else _] => destruct b end; cbn;
      repeat split; try done; apply Hdur'.
  - cbn. repeat split; try done; lia.
  - cbn. repeat split; try done; lia.
Qed.

Lemma timerRun_kept es :
  forall a0 a w, Forall event_ok es -> kept_from a0 a ->
  kept_from a0 (fst (timerRun es (a, w))).
Proof.
  unfold timerRun. induction es as [|e es IH]; intros a0 a w Hes Hk; [done|].
  apply Forall_cons in Hes as [He Hes]. cbn [fold_left].
  pose proof (timerStep_kept a0 a w e He Hk) as Hk'.
  destruct (timerStep (a, w) e) as [a1 w1]. by apply IH.
Qed.

(** An event either leaves the record and the storage alone or stores the
    new record; it never touches the settings text or the module. *)
Lemma timerStep_storage a w e :
  let a' := fst (timerStep (a, w) e) in
  let w' := snd (timerStep (a, w) e) in
  ((stats a' = stats a /\ w' = w) \/ w' = saveStats w (stats a')).
Proof.
  destruct e as [now| |f|m|s| |]; cbn [timerStep fst snd]; try (left; done).
  - unfold tick. destruct (isActive a); [|by left].
    destruct (timeLeft a <=? 1); [|by left].
    unfold completeSession. destruct (mode a); [by right | by left].
  - left. split; [|done]. unfold resetTimer. by destruct f.
  - left. split; [|done]. unfold applySettings.
    by match goal with |- context [if ?b then _ else _] => destruct b end.
  - by right.
  - by right.
Qed.

Lemma timerRun_settings_key es :
  forall a w,
  SETTINGS_KEY (localStorage (snd (timerRun es (a, w))))
  = SETTINGS_KEY (localStorage w).
Proof.
  unfold timerRun. induction es as [|e es IH]; intros a w; [done|].
  cbn [fold_left].
  pose proof (timerStep_storage a w e) as Hs.
  destruct (timerStep (a, w) e) as [a1 w1]. cbn [fst snd] in Hs.
  rewrite IH. by destruct Hs as [[_ ->]| ->].
Qed.

Lemma timerStep_state a w w' e :
  fst (timerStep (a, w) e) = fst (timerStep (a, w') e).
Proof.
  destruct e as [now| |f|m|s| |]; cbn [timerStep fst snd]; try done.
  unfold tick. destruct (isActive a); [|done].
  destruct (timeLeft a <=? 1); [|done].
  unfold completeSession. by destruct (mode a).
Qed.

Lemma timerRun_state es :
  forall a w w', fst (timerRun es (a, w)) = fst (timerRun es (a, w')).
Proof.
  unfold timerRun. induction es as [|e es IH]; intros a w w'; [done|].
  cbn [fold_left].
  pose proof (timerStep_state a w w' e) as Hs.
  destruct (timerStep (a, w) e) as [a1 w1], (timerStep (a, w') e) as [a2 w2].
  cbn [fst] in Hs. subst a2. apply IH.
Qed.

End TimerRuns.

(** X17.  Through any run of timer events (firings of the interval, the
    start/pause, reset and mode buttons, new settings with durations of at
    least one minute, the two goal buttons), from a state with such
    durations, at least one second left and a daily goal of at least 1: the
    time left stays at least one second, the durations and the daily goal
    stay at least 1, the history, both streaks and [weekStartDate] never
    change, and today's sessions and minutes never go down. *)
Theorem timerRun_keeps (es : list TimerEvent) (a : AppState) (w : World) :
  durations_ok (settings a) -> 1 <= timeLeft a -> 1 <= dailyGoal (stats a) ->
  Forall event_ok es ->
  let a' := fst (timerRun es (a, w)) in
  durations_ok (settings a') /\ 1 <= timeLeft a' /\ 1 <= dailyGoal (stats a')
  /\ history (stats a') = history (stats a)
  /\ currentStreak (stats a') = currentStreak (stats a)
  /\ longestStreak (stats a') = longestStreak (stats a)
  /\ weekStartDate (stats a') = weekStartDate (stats a)
  /\ todaySessions (stats a) <= todaySessions (stats a')
  /\ totalMinutesToday (stats a) <= totalMinutesToday (stats a').
Proof.
  intros Hd Ht Hg Hes a'.
  apply (timerRun_kept es a a w Hes).
  unfold kept_from. repeat split; try done; try apply Hd; lia.
Qed.

(** A second left in focus mode, the interval fires, the goal is lowered
    twice, the timer is reset. *)
Lemma timerRun_keeps_witness :
  let s := mkStats 0 0 1 1704103200000 1703930400000 0 0 5 3
             [("2023-12-31", 1)] in
  let a := mkApp DEFAULT_SETTINGS focus 1 true s in
  let w := mkWorld 0 [] (mkStorage None None) in
  let a' := fst (timerRun [Tick 1704103201000; GoalDown; GoalDown; Reset false]
                   (a, w)) in
  durations_ok (settings a) /\ Forall event_ok
    [Tick 1704103201000; GoalDown; GoalDown; Reset false]
  /\ 1 <= timeLeft a' /\ 1 <= dailyGoal (stats a')
  /\ currentStreak (stats a') = 3.
Proof.
  intros s a w a'.
  assert (Hd : durations_ok (settings a)) by (split; simpl; lia).
  assert (Hes : Forall event_ok
            [Tick 1704103201000; GoalDown; GoalDown; Reset false])
    by (repeat constructor).
  assert (Ht : 1 <= timeLeft a) by (simpl; lia).
  assert (Hg : 1 <= dailyGoal (stats a)) by (simpl; lia).
  destruct (timerRun_keeps _ a w Hd Ht Hg Hes) as (_ & H1 & H2 & _ & H3 & _).
  split; [exact Hd|]. split; [exact Hes|].
  split; [exact H1|]. split; [exact H2 | exact H3].
Defined.

Section AppRuns.

Variable tz : Z.



End AppRuns.







(** ** The shared mock history and reloads *)

Section Sharing.

Variable tz : Z.

Lemma getStats_stored_mockHistory w now p :
  STATS_KEY (localStorage w) = Some (Json p) ->
  mockHistory (snd (getStats tz w now)) = mockHistory w.
Proof.
  intros E. unfold getStats.
  assert (Hl : exists s, loadStats tz w now = (s, false, snd (loadStats tz w now))
                         /\ mockHistory (snd (loadStats tz w now)) = mockHistory w).
  { destruct (history_missing p) eqn:Hm.
    - rewrite (loadStats_migrate _ _ _ _ E Hm). eauto.
    - rewrite (loadStats_keep _ _ _ _ E Hm). eauto. }
  destruct Hl as (s & Hl & Hmh). rewrite Hl.
  set (w1 := snd (loadStats tz w now)) in *. clearbody w1.
  set (d := dailyReset tz now s). clearbody d.
  destruct (dayChanged tz now s);
    match goal with |- context [weekElapsed ?n ?x] =>
      destruct (weekElapsed n x) end;
    cbn [snd saveStats share_history mockHistory]; done.
Qed.

Lemma getStats_default_mockHistory w now :
  STATS_KEY (localStorage w) = None ->
  mockHistory (snd (getStats tz w now)) = history (fst (getStats tz w now)).
Proof.
  intros E. unfold getStats.
  rewrite loadStats_default by auto.
  assert (Hh : history (DEFAULT_STATS tz w) = mockHistory w) by reflexivity.
  set (s := DEFAULT_STATS tz w) in *. clearbody s.
  set (d := dailyReset tz now s). clearbody d.
  destruct (dayChanged tz now s);
    match goal with |- context [weekElapsed ?n ?x] =>
      destruct (weekElapsed n x) end;
    cbn [fst snd saveStats share_history mockHistory weeklyReset history];
    done.
Qed.

End Sharing.

(** X19.  The module's [mockHistory] object is shared with the record built
    from the defaults.  When a statistics object is stored, [getStats] leaves
    [mockHistory] as it is.  When nothing is stored, [mockHistory] is
    afterwards the history of the record returned; if the call falls on
    another local day than the load of the module, it has gained the entry
    of the load day with the 3 sessions of the defaults, so the defaults of a
    later first run differ. *)
Theorem mockHistory_sharing (tz : Z) (w : World) (now : Z) :
  (forall p, STATS_KEY (localStorage w) = Some (Json p) ->
             mockHistory (snd (getStats tz w now)) = mockHistory w)
  /\ (STATS_KEY (localStorage w) = None ->
      mockHistory (snd (getStats tz w now)) = history (fst (getStats tz w now))
      /\ (localDay tz now <> localDay tz (loadTime w) ->
          mockHistory (snd (getStats tz w now))
          = obj_set (mockHistory w) (getDateKey tz (loadTime w)) 3)).
Proof.
  split; [intros p E; by apply (getStats_stored_mockHistory tz w now p)|].
  intros E. split; [by apply getStats_default_mockHistory|].
  intros Hday. rewrite getStats_default_mockHistory by done.
  rewrite getStats_rollover. unfold loaded.
  rewrite loadStats_default by auto. cbn [fst].
  assert (Hd : dayChanged tz now (DEFAULT_STATS tz w) = true).
  { rewrite dayChanged_localDay. cbn [DEFAULT_STATS lastUpdate].
    apply Z.eqb_neq in Hday. by rewrite Hday. }
  destruct (rollover_new_day tz now _ Hd) as (_ & _ & _ & _ & ->).
  reflexivity.
Qed.

(** A module loaded on 2024-01-01, nothing stored, read on 2024-01-02. *)
Lemma mockHistory_sharing_witness :
  let w := module_init 0 1704103200000 (mkStorage None None) in
  localDay 0 1704186000000 <> localDay 0 (loadTime w)
  /\ mockHistory (snd (getStats 0 w 1704186000000))
     = obj_set (mockHistory w) (getDateKey 0 (loadTime w)) 3.
Proof.
  intros w.
  assert (Hday : localDay 0 1704186000000 <> localDay 0 (loadTime w))
    by (vm_compute; discriminate).
  destruct (mockHistory_sharing 0 w 1704186000000) as (_ & H).
  destruct (H eq_refl) as (_ & H2).
  split; [exact Hday | exact (H2 Hday)].
Defined.

(** X20.  A reload after the statistics were changed.  The record that a
    completed focus session stores is the record [getStats] returns when the
    page is loaded again on the local day of the completion, and the record
    that a goal button stores is the one returned on the local day of its
    [lastUpdate]; both for a record with history entries and less than seven
    days after its [weekStartDate]. *)
Theorem reload_after_change (tz : Z) (a : AppState) (w : World) (now now' : Z) :
  history (stats a) <> [] ->
  now' - weekStartDate (stats a) < 7 * Calendar.msPerDay ->
  (mode a = focus -> localDay tz now' = localDay tz now ->
   fst (getStats tz (snd (completeSession now (a, w))) now')
   = newStats (stats a) (focusDuration (settings a)) now)
  /\ (localDay tz now' = localDay tz (lastUpdate (stats a)) ->
      fst (getStats tz (snd (decrementGoal (a, w))) now')
      = with_dailyGoal (stats a) (Z.max 1 (dailyGoal (stats a) - 1))
      /\ fst (getStats tz (snd (incrementGoal (a, w))) now')
         = with_dailyGoal (stats a) (dailyGoal (stats a) + 1)).
Proof.
  intros Hne Hweek. split.
  - intros Hm Hday. unfold completeSession. rewrite Hm. cbn [snd].
    by rewrite stats_round_trip_fact.
  - intros Hday. unfold decrementGoal, incrementGoal. cbn [snd].
    by rewrite !stats_round_trip_fact.
Qed.

Lemma reload_after_change_witness :
  let s := mkStats 0 0 4 1704103200000 1703930400000 0 0 5 3
             [("2023-12-31", 1)] in
  let a := mkApp DEFAULT_SETTINGS focus 1 true s in
  let w := mkWorld 0 [] (mkStorage None None) in
  history (stats a) <> []
  /\ todaySessions
       (fst (getStats 0 (snd (completeSession 1704106800000 (a, w)))
               1704110400000)) = 1.
Proof.
  intros s a w.
  assert (Hne : history (stats a) <> []) by discriminate.
  assert (Hweek : 1704110400000 - weekStartDate (stats a)
                  < 7 * Calendar.msPerDay) by (vm_compute; reflexivity).
  destruct (reload_after_change 0 a w 1704106800000 1704110400000 Hne Hweek)
    as (H & _).
  split; [exact Hne|].
  exact (f_equal todaySessions (H eq_refl eq_refl)).
Defined.
